(** * pydantic-xml: homogeneous collection serializers

    A shallow embedding of
    [pydantic_xml/serializers/factories/homogeneous.py]: the factory
    [HomogeneousSerializerFactory.build] and its three serializer variants
    (inline text, attribute, repeated sibling elements), followed by the
    properties of the specification that concern them.

    Conventions of the embedding.
    - A Python [str] is a [string]; every character is a code point below
      256, and [isspace] is Python's whitespace table on that range.
    - [None] is [None]: an optional Python value is an [option].
    - A raised exception is the [Raise] side of [result].
    - The tree node is a mutable object in the source.  Every method that
      touches it takes the node's state and returns the new state. *)

From Stdlib Require Import String Ascii List ZArith Bool Lia.
From stdpp Require Import gmap strings list fin_maps.
Import ListNotations.

Set Warnings "-register-all".

#[local] Arguments String.append !_ _.

Local Open Scope string_scope.
Local Open Scope list_scope.

(** ** Python strings: [str.split()] and [str.join] *)

(** [str.isspace] on one character, for code points below 256:
    TAB..CR (9-13), FS..US (28-31), space (32), NEL (133), NBSP (160). *)
Definition isspace (c : ascii) : bool :=
  let n := nat_of_ascii c in
  ((9 <=? n)%nat && (n <=? 13)%nat)
  || ((28 <=? n)%nat && (n <=? 31)%nat)
  || (n =? 32)%nat || (n =? 133)%nat || (n =? 160)%nat.

(** The scan of [str.split()] with no separator: [word] is the word being
    read ([""] while skipping whitespace). *)
Fixpoint split_from (s : string) (word : string) : list string :=
  match s with
  | EmptyString =>
      match word with
      | EmptyString => []
      | _ => [word]
      end
  | String c rest =>
      if isspace c then
        match word with
        | EmptyString => split_from rest ""
        | _ => word :: split_from rest ""
        end
      else split_from rest (word ++ String c "")
  end.

(** [text.split()] *)
Definition split (s : string) : list string := split_from s "".

(** [sep.join(xs)] *)
Fixpoint join (sep : string) (xs : list string) : string :=
  match xs with
  | [] => ""
  | x :: rest =>
      match rest with
      | [] => x
      | _ => x ++ sep ++ join sep rest
      end
  end.

(** Every character of [s] is whitespace. *)
Fixpoint all_space (s : string) : bool :=
  match s with
  | EmptyString => true
  | String c rest => isspace c && all_space rest
  end.

(** No character of [s] is whitespace. *)
Fixpoint no_space (s : string) : bool :=
  match s with
  | EmptyString => true
  | String c rest => negb (isspace c) && no_space rest
  end.

(** A word: what [split] can return, a non-empty string free of
    whitespace. *)
Definition is_word (s : string) : bool :=
  match s with
  | EmptyString => false
  | _ => no_space s
  end.

(** A separator run: one or more whitespace characters. *)
Definition is_gap (s : string) : bool :=
  match s with
  | EmptyString => false
  | _ => all_space s
  end.

(** [w0 g1 w1 g2 w2 ...]: the word [w] followed by (gap, word) pairs. *)
Fixpoint spaced (w : string) (rest : list (string * string)) : string :=
  match rest with
  | [] => w
  | (g, w') :: rest' => w ++ g ++ spaced w' rest'
  end.

Definition TAB : string := String (ascii_of_nat 9) "".

(** ** The tree node *)

(** Modelled from the spec: the tree node ([pydantic_xml.element], not part
    of the sources at hand).  Section 6 gives its interface: [set_text],
    [pop_text], [set_attribute], [pop_attrib], appending a child and "find
    and remove next matching child by tag"; reads are destructive. *)
Inductive XmlElement : Type :=
  mkXmlElement {
    tag : string;
    text : option string;
    attrib : gmap string string;
    elements : list XmlElement
  }.

Definition empty_element (t : string) : XmlElement :=
  mkXmlElement t None ∅ [].

(** Modelled from the spec: [setText(string)], overwriting. *)
Definition set_text (e : XmlElement) (value : string) : XmlElement :=
  mkXmlElement (tag e) (Some value) (attrib e) (elements e).

(** Modelled from the spec: [popText() -> optional string]. *)
Definition pop_text (e : XmlElement) : option string * XmlElement :=
  (text e, mkXmlElement (tag e) None (attrib e) (elements e)).

(** Modelled from the spec: [setAttribute(qname, string)], overwriting. *)
Definition set_attribute (e : XmlElement) (name value : string) : XmlElement :=
  mkXmlElement (tag e) (text e) (<[name := value]> (attrib e)) (elements e).

(** Modelled from the spec: [popAttribute(qname) -> optional string]. *)
Definition pop_attrib (e : XmlElement) (name : string)
  : option string * XmlElement :=
  (attrib e !! name,
   mkXmlElement (tag e) (text e) (delete name (attrib e)) (elements e)).

(** Modelled from the spec: a new child is appended after its siblings. *)
Definition append_element (e sub : XmlElement) : XmlElement :=
  mkXmlElement (tag e) (text e) (attrib e) (elements e ++ [sub]).

(** Modelled from the spec: "find and remove next matching child by tag".
    Only the next remaining child is looked at (section 8: decoding stops at
    the first non-matching child). *)
Definition pop_element (e : XmlElement) (t : string)
  : option XmlElement * XmlElement :=
  match elements e with
  | sub :: rest =>
      if String.eqb (tag sub) t
      then (Some sub, mkXmlElement (tag e) (text e) (attrib e) rest)
      else (None, e)
  | [] => (None, e)
  end.

(** ** Exceptions, types and field descriptors *)

(** The exceptions this module can raise. *)
Inductive PyErr : Type :=
| ModelFieldError (model_name : string) (field_name : option string)
    (message : string)
| TypeError (message : string)
| AssertionError (message : option string)
| IndexError (message : string).

Inductive result (T : Type) : Type :=
| Ok (value : T)
| Raise (err : PyErr).

Arguments Ok {T} _.
Arguments Raise {T} _.

(** The serializer classes whose construction is recorded. *)
Inductive SerializerClass : Type :=
| TextSerializerClass
| AttributeSerializerClass
| ElementSerializerClass
| OtherSerializerClass (name : string).

(** Construction-time code: it may raise, and it records every serializer
    object it creates, in creation order. *)
Definition M (T : Type) : Type :=
  list SerializerClass -> list SerializerClass * result T.

Definition ret {T : Type} (x : T) : M T := fun log => (log, Ok x).

Definition raise {T : Type} (e : PyErr) : M T := fun log => (log, Raise e).

Definition bind {T U : Type} (m : M T) (k : T -> M U) : M U :=
  fun log =>
    match m log with
    | (log', Ok x) => k x log'
    | (log', Raise e) => (log', Raise e)
    end.

(** [cls(...)]: a new object of class [cls] is created and initialised. *)
Definition construct {T : Type} (cls : SerializerClass) (init : M T) : M T :=
  fun log => init (log ++ [cls]).

(** [assert cond, message] *)
Definition assert (cond : bool) (message : option string) : M unit :=
  if cond then ret tt else raise (AssertionError message).

(** The outcome of construction-time code started with nothing created. *)
Definition run {T : Type} (m : M T) : list SerializerClass * result T := m [].

Declare Scope build_scope.
Delimit Scope build_scope with build.
Notation "x <- m ;; k" := (bind m (fun x => k))
  (at level 100, m at next level, right associativity) : build_scope.
Notation "m ;;; k" := (bind m (fun _ => k))
  (at level 100, right associativity) : build_scope.

(** A value that can stand where Python expects a type:
    - a class, given by the names of the classes of its method resolution
      order (itself first);
    - an object that is not a class and has no [__bases__], such as a
      [typing] form ([Union[int, str]], [typing.List[int]]), given by its
      [repr];
    - an object that is not a class but forwards [__bases__] to the class
      it was made from, such as a generic alias of a built-in
      ([dict[str, int]], [list[int]], [tuple[int, str]]), given by its
      [repr] and the method resolution order of that class. *)
Inductive PyType : Type :=
| PyClass (mro : list string)
| PyNonClass (repr : string)
| PyAlias (repr : string) (origin_mro : list string).

(** [inspect.isclass] *)
Definition isclass (t : PyType) : bool :=
  match t with
  | PyClass _ => true
  | PyNonClass _ => false
  | PyAlias _ _ => false
  end.

Definition BaseXmlModel : string := "BaseXmlModel".
Definition tuple : string := "tuple".

(** The metaclass of [cls] derives from [ABCMeta]: true of [BaseXmlModel],
    a pydantic model, and not of the built-in [tuple]. *)
Definition has_abc_metaclass (cls : string) : bool :=
  String.eqb cls BaseXmlModel.

(** [issubclass(t, cls)].  For a class [t] it is membership of [cls] in the
    method resolution order.  For an object without [__bases__] it is the
    [TypeError] of the built-in.  For an object that is not a class but
    has [__bases__], [ABCMeta.__subclasscheck__] raises the same
    [TypeError], and against a plain class the built-in follows
    [__bases__]: the object is not [cls] itself, so the answer is whether
    [cls] is among the bases of the class it was made from and their
    ancestors. *)
Definition issubclass (t : PyType) (cls : string) : M bool :=
  match t with
  | PyClass mro => ret (existsb (String.eqb cls) mro)
  | PyNonClass _ => raise (TypeError "issubclass() arg 1 must be a class")
  | PyAlias _ origin_mro =>
      if has_abc_metaclass cls then
        raise (TypeError "issubclass() arg 1 must be a class")
      else ret (existsb (String.eqb cls) (tl origin_mro))
  end.

(** [pydantic.fields.ModelField], the attributes this module reads. *)
Inductive ModelField (FieldInfo : Type) : Type :=
  mkModelField {
    name : option string;
    alias : string;
    type_ : PyType;
    shape : Z;
    sub_fields : option (list (ModelField FieldInfo));
    field_info : FieldInfo
  }.

Arguments mkModelField {FieldInfo} _ _ _ _ _ _.
Arguments name {FieldInfo} _.
Arguments alias {FieldInfo} _.
Arguments type_ {FieldInfo} _.
Arguments shape {FieldInfo} _.
Arguments sub_fields {FieldInfo} _.
Arguments field_info {FieldInfo} _.

(** The model class: [model.__name__] and [model.__custom_root_type__]. *)
Record Model : Type :=
  mkModel {
    __name__ : string;
    __custom_root_type__ : bool
  }.

(** [Location] *)
Inductive Location : Type :=
| ELEMENT
| ATTRIBUTE
| MISSING.

(** [PydanticShapeType] *)
Inductive PydanticShapeType : Type :=
| UNKNOWN
| SCALAR
| HOMOGENEOUS
| HETEROGENEOUS.

(** [x in (PydanticShapeType.HOMOGENEOUS, PydanticShapeType.HETEROGENEOUS)] *)
Definition is_collection_shape (x : PydanticShapeType) : bool :=
  match x with
  | HOMOGENEOUS | HETEROGENEOUS => true
  | UNKNOWN | SCALAR => false
  end.

(** [field_location is Location.MISSING] *)
Definition is_MISSING (l : Location) : bool :=
  match l with
  | MISSING => true
  | ELEMENT | ATTRIBUTE => false
  end.

(** [a or b] on optional strings: [a] unless it is [None] or empty. *)
Definition or_else (a b : option string) : option string :=
  match a with
  | None | Some EmptyString => b
  | Some _ => a
  end.

(** [a or b] when [b] is a string. *)
Definition or_str (a : option string) (b : string) : string :=
  match a with
  | None | Some EmptyString => b
  | Some x => x
  end.

(** [x is None] *)
Definition is_None {T : Type} (x : option T) : bool :=
  match x with
  | None => true
  | Some _ => false
  end.

(** [result or None] *)
Definition or_None {T : Type} (result : list T) : option (list T) :=
  match result with
  | [] => None
  | _ => Some result
  end.

(** ** The serializer contract *)

Module Serializer.

(** [Serializer.serialize(element, value, encoder=, skip_empty=)] and
    [Serializer.deserialize(element)] of a serializer whose values have
    type [A] and whose decoded values have type [R].  [encoder.encode] is
    the function [A -> string].  Both methods are given for a present
    node, the only way the element variant calls them, and return the
    state of that node after the call. *)
Record t (A R : Type) : Type :=
  mk {
    serialize : XmlElement -> option A -> (A -> string) -> bool -> XmlElement;
    deserialize : XmlElement -> option R * XmlElement
  }.

Arguments mk {A R} _ _.
Arguments serialize {A R} _ _ _ _ _.
Arguments deserialize {A R} _ _.

(** [Serializer.Context] *)
Record Context : Type :=
  mkContext {
    parent_is_root : bool;
    parent_ns : option string;
    parent_nsmap : option (gmap string string)
  }.

End Serializer.

(** The collaborators that are not part of this module:
    [PydanticShapeType.from_shape], [Serializer._get_entity_info],
    [QName.from_alias(tag=, ns=, nsmap=, is_attr=).uri], [merge_nsmaps] and
    [Serializer._build_field_serializer]. *)
Record Externals (FieldInfo A R : Type) : Type :=
  mkExternals {
    from_shape : Z -> PydanticShapeType;
    _get_entity_info :
      ModelField FieldInfo ->
      option string * option string * option (gmap string string);
    from_alias_uri :
      string -> option string -> option (gmap string string) -> bool -> string;
    merge_nsmaps :
      option (gmap string string) -> option (gmap string string) ->
      option (gmap string string);
    _build_field_serializer :
      Model -> ModelField FieldInfo -> Serializer.Context ->
      M (Serializer.t A R)
  }.

Arguments mkExternals {FieldInfo A R} _ _ _ _ _.
Arguments from_shape {FieldInfo A R} _ _.
Arguments _get_entity_info {FieldInfo A R} _ _.
Arguments from_alias_uri {FieldInfo A R} _ _ _ _ _.
Arguments merge_nsmaps {FieldInfo A R} _ _ _.
Arguments _build_field_serializer {FieldInfo A R} _ _ _ _.

(** What [build] returns: one of the three variants with the configuration
    fixed at construction. *)
Inductive HomogeneousSerializer (A R : Type) : Type :=
| Text
| Attribute (attr_name : string)
| Element (_element_name : string) (_inner_serializer : Serializer.t A R).

Arguments Text {A R}.
Arguments Attribute {A R} _.
Arguments Element {A R} _ _.

(** [model_field.sub_fields and len(model_field.sub_fields) == 1] *)
Definition has_one_sub_field {FieldInfo : Type} (model_field : ModelField FieldInfo)
  : bool :=
  match sub_fields model_field with
  | Some [_] => true
  | _ => false
  end.

(** ** The text variant *)

Module TextSerializer.

(** [__init__]: lines 22-32.  [A and B or C] is [(A and B) or C]. *)
Definition __init__ {FieldInfo A R : Type} (model : Model)
    (model_field : ModelField FieldInfo) (ctx : Serializer.Context)
  : M (HomogeneousSerializer A R) :=
  (assert (has_one_sub_field model_field) None ;;;
   is_model <-
     (if isclass (type_ model_field)
      then issubclass (type_ model_field) BaseXmlModel
      else ret false) ;;
   rejected <-
     (if is_model then ret true
      else issubclass (type_ model_field) tuple) ;;
   if (rejected : bool) then
     raise (ModelFieldError (__name__ model) (name model_field)
              "Inline list value should be of scalar type")
   else ret Text)%build.

(** [serialize]: lines 34-43. *)
Definition serialize {A : Type} (element : XmlElement)
    (value : option (list A)) (encoder : A -> string) (skip_empty : bool)
  : XmlElement :=
  match value with
  | None => element
  | Some vals =>
      if skip_empty && (length vals =? 0)%nat then element
      else
        let encoded := join " " (map encoder vals) in
        set_text element encoded
  end.

(** [deserialize]: lines 45-54.  The second component is the node after
    the call. *)
Definition deserialize (element : option XmlElement)
  : option (list string) * option XmlElement :=
  match element with
  | None => (None, None)
  | Some e =>
      let '(text, e') := pop_text e in
      match text with
      | None => (Some [], Some e')
      | Some t => (Some (split t), Some e')
      end
  end.

End TextSerializer.

(** ** The attribute variant *)

Module AttributeSerializer.

(** [__init__]: lines 57-72. *)
Definition __init__ {FieldInfo A R : Type} (ext : Externals FieldInfo A R)
    (model : Model) (model_field : ModelField FieldInfo)
    (ctx : Serializer.Context) : M (HomogeneousSerializer A R) :=
  (assert (has_one_sub_field model_field) None ;;;
   is_model <- issubclass (type_ model_field) BaseXmlModel ;;
   if (is_model : bool) then
     raise (ModelFieldError (__name__ model) (name model_field)
              "Inline list value should be of scalar type")
   else
     let '(_, ns, nsmap) := _get_entity_info ext model_field in
     match name model_field with
     | None => raise (AssertionError (Some "attr must be name"))
     | Some name =>
         ret (Attribute (from_alias_uri ext name ns nsmap true))
     end)%build.

(** [serialize]: lines 74-83. *)
Definition serialize {A : Type} (attr_name : string) (element : XmlElement)
    (value : option (list A)) (encoder : A -> string) (skip_empty : bool)
  : XmlElement :=
  match value with
  | None => element
  | Some vals =>
      if skip_empty && (length vals =? 0)%nat then element
      else
        let encoded := join " " (map encoder vals) in
        set_attribute element attr_name encoded
  end.

(** [deserialize]: lines 85-94. *)
Definition deserialize (attr_name : string) (element : option XmlElement)
  : option (list string) * option XmlElement :=
  match element with
  | None => (None, None)
  | Some e =>
      let '(attribute, e') := pop_attrib e attr_name in
      match attribute with
      | None => (Some [], Some e')
      | Some a => (Some (split a), Some e')
      end
  end.

End AttributeSerializer.

(** ** The element variant *)

Module ElementSerializer.

(** [__init__]: lines 97-123.  [deepcopy] is the identity on a value. *)
Definition __init__ {FieldInfo A R : Type} (ext : Externals FieldInfo A R)
    (model : Model) (model_field : ModelField FieldInfo)
    (ctx : Serializer.Context) : M (HomogeneousSerializer A R) :=
  match sub_fields model_field with
  | None => raise (AssertionError (Some "unexpected model field"))
  | Some subs =>
      let '(name0, ns0, nsmap0) := _get_entity_info ext model_field in
      let name1 := or_str name0 (alias model_field) in
      let ns := or_else ns0 (Serializer.parent_ns ctx) in
      let nsmap := merge_nsmaps ext nsmap0 (Serializer.parent_nsmap ctx) in
      let _element_name := from_alias_uri ext name1 ns nsmap false in
      match subs with
      | [] => raise (IndexError "list index out of range")
      | sub0 :: _ =>
          let item_field :=
            mkModelField (name model_field) (alias model_field)
              (type_ sub0) (shape sub0) (sub_fields sub0)
              (field_info model_field) in
          (_inner_serializer <-
             _build_field_serializer ext model item_field
               (Serializer.mkContext false ns nsmap) ;;
           ret (Element _element_name _inner_serializer))%build
      end
  end.

Section Methods.

Context {A R : Type}.
Variable inner_serializer : Serializer.t A R.

(** The [for val in value] loop of [serialize]: lines 134-138.  The
    inner serializer writes to the same node every time. *)
Fixpoint serialize_loop (element : XmlElement) (vals : list (option A))
    (encoder : A -> string) (skip_empty : bool) : XmlElement :=
  match vals with
  | [] => element
  | val :: rest =>
      if skip_empty && is_None val then
        serialize_loop element rest encoder skip_empty
      else
        serialize_loop
          (Serializer.serialize inner_serializer element val encoder skip_empty)
          rest encoder skip_empty
  end.

(** [serialize]: lines 125-140. *)
Definition serialize (element : XmlElement)
    (value : option (list (option A))) (encoder : A -> string)
    (skip_empty : bool) : XmlElement :=
  match value with
  | None => element
  | Some vals =>
      if skip_empty && (length vals =? 0)%nat then element
      else serialize_loop element vals encoder skip_empty
  end.

(** The [while] loop of [deserialize]: lines 146-148.  [fuel] bounds the
    number of calls of the inner serializer; [None] is "out of fuel". *)
Fixpoint deserialize_loop (fuel : nat) (element : XmlElement)
    (result : list R) : option (list R * XmlElement) :=
  match fuel with
  | O => None
  | S fuel' =>
      match Serializer.deserialize inner_serializer element with
      | (Some value, element') =>
          deserialize_loop fuel' element' (result ++ [value])
      | (None, element') => Some (result, element')
      end
  end.

(** [deserialize]: lines 142-150; [result or None] is [None] for the
    empty list. *)
Definition deserialize (fuel : nat) (element : option XmlElement)
  : option (option (list R) * option XmlElement) :=
  match element with
  | None => Some (None, None)
  | Some e =>
      match deserialize_loop fuel e [] with
      | None => None
      | Some (result, e') =>
          Some (or_None result, Some e')
      end
  end.

End Methods.

End ElementSerializer.

(** ** The factory *)

Module HomogeneousSerializerFactory.

(** [build]: lines 152-186.  [Location] has three members, so the final
    [else] of the source (an [AssertionError], "unreachable") has no case
    here. *)
Definition build {FieldInfo A R : Type} (ext : Externals FieldInfo A R)
    (model : Model) (model_field : ModelField FieldInfo)
    (field_location : Location) (ctx : Serializer.Context)
  : M (HomogeneousSerializer A R) :=
  match sub_fields model_field with
  | None => raise (AssertionError (Some "unexpected model field"))
  | Some subs =>
      match subs with
      | [item_field] =>
          let is_root := __custom_root_type__ model in
          if is_collection_shape (from_shape ext (shape item_field)) then
            raise (ModelFieldError (__name__ model) (name model_field)
                     "collection elements can't be of collection type")
          else if is_root && is_MISSING field_location then
            raise (ModelFieldError (__name__ model) (name model_field)
                     "root model collections should be marked as elements")
          else
            match field_location with
            | ELEMENT =>
                construct ElementSerializerClass
                  (ElementSerializer.__init__ ext model model_field ctx)
            | MISSING =>
                construct TextSerializerClass
                  (TextSerializer.__init__ model model_field ctx)
            | ATTRIBUTE =>
                construct AttributeSerializerClass
                  (AttributeSerializer.__init__ ext model model_field ctx)
            end
      | _ => raise (AssertionError (Some "unexpected subfields number"))
      end
  end.

End HomogeneousSerializerFactory.

(** ** Sample collaborators *)

(** Modelled from the spec: the inner serializer of a scalar item (built by
    the generic builder, not part of the sources at hand).  Section 4.4:
    each [serialize] call appends one new child with the resolved tag, each
    [deserialize] call consumes at most one matching child and returns its
    decoded value, or absent when no matching child remains.  An absent
    value writes nothing. *)
Definition child_serializer {A : Type} (t : string) : Serializer.t A string :=
  Serializer.mk
    (fun element value encoder skip_empty =>
       match value with
       | None => element
       | Some v => append_element element (mkXmlElement t (Some (encoder v)) ∅ [])
       end)
    (fun element =>
       match pop_element element t with
       | (Some sub, element') => (text sub, element')
       | (None, element') => (None, element')
       end).

(** The values of the children that [child_serializer t] will return, in
    order, when every child is one of its own; [None] otherwise. *)
Fixpoint child_values (t : string) (children : list XmlElement)
  : option (list string) :=
  match children with
  | [] => Some []
  | sub :: rest =>
      if String.eqb (tag sub) t then
        match text sub, child_values t rest with
        | Some v, Some vs => Some (v :: vs)
        | _, _ => None
        end
      else None
  end.

Definition child_queue (t : string) (e : XmlElement) : option (list string) :=
  child_values t (elements e).

(** Sample collaborators for concrete evaluations: pydantic's shape numbers
    (1 singleton, 2 list, 3 set, 5 tuple, 6 tuple with ellipsis, 7 sequence,
    8 frozen set), no entity overrides, unqualified names, the field's map
    before the inherited one, and a scalar child serializer for every
    item. *)
Definition sample_externals : Externals unit string string :=
  mkExternals
    (fun shape =>
       if (shape =? 1)%Z then SCALAR
       else if (shape =? 5)%Z then HETEROGENEOUS
       else if ((2 <=? shape)%Z && (shape <=? 8)%Z && negb (shape =? 4)%Z)
       then HOMOGENEOUS
       else UNKNOWN)
    (fun _ => (None, None, None))
    (fun tag _ _ _ => tag)
    (fun nsmap parent_nsmap =>
       match nsmap with
       | Some _ => nsmap
       | None => parent_nsmap
       end)
    (fun model item_field ctx =>
       construct (OtherSerializerClass "primitive.ElementSerializer")
         (ret (child_serializer (alias item_field)))).

Definition sample_model (root : bool) : Model := mkModel "Doc" root.

Definition sample_ctx : Serializer.Context := Serializer.mkContext true None None.

(** An item sub-field of type [t] and shape number [sh]. *)
Definition sample_item (t : PyType) (sh : Z) : ModelField unit :=
  mkModelField (Some "_values") "_values" t sh None tt.

(** The field [values: List[t]], whose items have shape number [sh]. *)
Definition sample_field (t : PyType) (sh : Z) : ModelField unit :=
  mkModelField (Some "values") "values" t 2 (Some [sample_item t sh]) tt.

Definition str_class : PyType := PyClass ["str"; "object"].
Definition model_class : PyType :=
  PyClass ["Item"; "BaseXmlModel"; "BaseModel"; "Representation"; "object"].
Definition namedtuple_class : PyType := PyClass ["Point"; "tuple"; "object"].
Definition union_form : PyType := PyNonClass "typing.Union[int, str]".
Definition dict_alias : PyType := PyAlias "dict[str, int]" ["dict"; "object"].

(** The inner serializer of string items under the tag [item]. *)
Definition item_serializer : Serializer.t string string :=
  child_serializer "item".

(** The content [a   b<TAB>c] of the specification, and a node that holds it
    as its text and as its attribute [vals]. *)
Definition abc_content : string := ("a   b" ++ TAB ++ "c")%string.

Definition abc_element : XmlElement :=
  mkXmlElement "doc" (Some abc_content) {[ "vals" := abc_content ]} [].

(** A node with the children [<item>a</item><item>b</item>]. *)
Definition ab_children : XmlElement :=
  mkXmlElement "doc" None ∅
    [mkXmlElement "item" (Some "a") ∅ []; mkXmlElement "item" (Some "b") ∅ []].

(** ** The contract of the inner serializer *)

(** Section 4.4 on the inner serializer of the element variant, for a
    serializer whose decoded values are the values written: [queue e] is the
    sequence of values still to be read from the node [e] ([None] when [e]
    holds something the serializer does not own).  Each [serialize] adds one
    value at the end, each [deserialize] takes the first one, or answers
    absent when none is left. *)
Record inner_contract {A : Type} (inner : Serializer.t A A)
    (encoder : A -> string) (skip_empty : bool)
    (queue : XmlElement -> option (list A)) : Prop :=
  mkInnerContract {
    serialize_appends :
      forall e q v,
        queue e = Some q ->
        queue (Serializer.serialize inner e (Some v) encoder skip_empty)
        = Some (q ++ [v]);
    deserialize_absent :
      forall e,
        queue e = Some [] ->
        exists e', Serializer.deserialize inner e = (None, e');
    deserialize_next :
      forall e v rest,
        queue e = Some (v :: rest) ->
        exists e',
          Serializer.deserialize inner e = (Some v, e')
          /\ queue e' = Some rest
  }.

(** The calls the [while] loop of the element variant makes: from the node
    [e] the inner serializer returns the values [vs], one per call, then
    absent, leaving the node [e']. *)
Inductive drains {A R : Type} (inner : Serializer.t A R)
  : XmlElement -> list R -> XmlElement -> Prop :=
| drains_stop e e' :
    Serializer.deserialize inner e = (None, e') ->
    drains inner e [] e'
| drains_step e v e1 vs e' :
    Serializer.deserialize inner e = (Some v, e1) ->
    drains inner e1 vs e' ->
    drains inner e (v :: vs) e'.

(** The calls the [for] loop of the element variant makes: the elements
    that are not skipped, in order. *)
Definition serialized_items {A : Type} (skip_empty : bool)
    (vals : list (option A)) : list (option A) :=
  List.filter (fun val => negb (skip_empty && is_None val)) vals.

(** ** Variants and locations *)

(** The location a variant stands for: the dispatch at the end of [build],
    lines 179-184, read backwards. *)
Definition variant_location {A R : Type} (s : HomogeneousSerializer A R)
  : Location :=
  match s with
  | Text => MISSING
  | Attribute _ => ATTRIBUTE
  | Element _ _ => ELEMENT
  end.

(** The class [build] instantiates for a location. *)
Definition location_class (l : Location) : SerializerClass :=
  match l with
  | ELEMENT => ElementSerializerClass
  | MISSING => TextSerializerClass
  | ATTRIBUTE => AttributeSerializerClass
  end.

(** [t] is a class that derives from none of [BaseXmlModel] and [tuple]. *)
Definition is_scalar_class (t : PyType) : bool :=
  match t with
  | PyClass mro =>
      negb (existsb (String.eqb BaseXmlModel) mro)
      && negb (existsb (String.eqb tuple) mro)
  | PyNonClass _ => false
  | PyAlias _ _ => false
  end.

(** [t] is not a class but has [__bases__], and [tuple] is not among the
    bases of the class it was made from and their ancestors. *)
Definition is_non_tuple_alias (t : PyType) : bool :=
  match t with
  | PyClass _ => false
  | PyNonClass _ => false
  | PyAlias _ origin_mro => negb (existsb (String.eqb tuple) (tl origin_mro))
  end.

(** [t] is a class that does not derive from [BaseXmlModel]. *)
Definition is_non_model_class (t : PyType) : bool :=
  match t with
  | PyClass mro => negb (existsb (String.eqb BaseXmlModel) mro)
  | PyNonClass _ => false
  | PyAlias _ _ => false
  end.

(** A node with text and two attributes. *)
Definition busy_element : XmlElement :=
  mkXmlElement "doc" (Some "t1 t2")
    (<[ "a" := "1 2" ]> (<[ "b" := "3" ]> ∅)) [].

(** * Properties *)

(** ** Strings *)

Lemma append_empty_r (s : string) : (s ++ "")%string = s.
Proof. induction s as [|c s IH]; simpl; [reflexivity | now rewrite IH]. Qed.

Lemma append_assoc (a b c : string) :
  ((a ++ b) ++ c)%string = (a ++ (b ++ c))%string.
Proof. induction a as [|x a IH]; simpl; [reflexivity | now rewrite IH]. Qed.

(** Reading a whitespace-free stretch extends the current word. *)
Lemma split_from_no_space (w s word : string) :
  no_space w = true ->
  split_from (w ++ s) word = split_from s (word ++ w).
Proof.
  revert word. induction w as [|c w IH]; intros word Hw; simpl.
  - now rewrite append_empty_r.
  - simpl in Hw. apply andb_true_iff in Hw as [Hc Hw].
    apply negb_true_iff in Hc. rewrite Hc, IH by exact Hw.
    now rewrite append_assoc.
Qed.

(** Whitespace with no word in progress is skipped. *)
Lemma split_from_all_space (g s : string) :
  all_space g = true ->
  split_from (g ++ s) "" = split_from s "".
Proof.
  induction g as [|c g IH]; intros Hg; simpl; [reflexivity |].
  simpl in Hg. apply andb_true_iff in Hg as [Hc Hg].
  rewrite Hc. now apply IH.
Qed.

(** A gap ends the word in progress. *)
Lemma split_from_gap (g s word : string) :
  is_gap g = true -> word <> "" ->
  split_from (g ++ s) word = word :: split_from s "".
Proof.
  destruct g as [|c g]; [discriminate |]. intros Hg Hword. simpl in *.
  apply andb_true_iff in Hg as [Hc Hg]. rewrite Hc.
  destruct word; [congruence |]. f_equal. now apply split_from_all_space.
Qed.

Lemma split_all_space (s : string) : all_space s = true -> split s = [].
Proof.
  intros Hs. unfold split. rewrite <- (append_empty_r s).
  now rewrite split_from_all_space.
Qed.

Lemma is_word_no_space (w : string) : is_word w = true -> no_space w = true.
Proof. destruct w; [discriminate | auto]. Qed.

Lemma is_word_nonempty (w : string) : is_word w = true -> w <> "".
Proof. destruct w; [discriminate | congruence]. Qed.

(** The words of [spaced w rest] followed by whitespace. *)
Lemma split_from_spaced (w : string) (rest : list (string * string))
    (trail : string) :
  is_word w = true ->
  forallb (fun gw => is_gap (fst gw) && is_word (snd gw)) rest = true ->
  all_space trail = true ->
  split_from (spaced w rest ++ trail) "" = w :: map snd rest.
Proof.
  revert w. induction rest as [|[g w'] rest IH]; intros w Hw Hrest Htrail.
  - simpl. rewrite split_from_no_space by now apply is_word_no_space.
    simpl. destruct trail as [|c trail].
    + simpl. destruct w; [discriminate | reflexivity].
    + rewrite <- (append_empty_r (String c trail)).
      rewrite split_from_gap; auto using is_word_nonempty.
  - simpl in Hrest. apply andb_true_iff in Hrest as [Hgw Hrest].
    apply andb_true_iff in Hgw as [Hg Hw']. simpl in Hg, Hw'. simpl.
    rewrite append_assoc, split_from_no_space by now apply is_word_no_space.
    simpl. rewrite append_assoc, split_from_gap; auto using is_word_nonempty.
    f_equal. now apply IH.
Qed.

Lemma split_spaced (lead w : string) (rest : list (string * string))
    (trail : string) :
  all_space lead = true ->
  is_word w = true ->
  forallb (fun gw => is_gap (fst gw) && is_word (snd gw)) rest = true ->
  all_space trail = true ->
  split (lead ++ spaced w rest ++ trail) = w :: map snd rest.
Proof.
  intros Hlead Hw Hrest Htrail. unfold split.
  rewrite split_from_all_space by exact Hlead.
  now apply split_from_spaced.
Qed.

(** Words joined by single spaces are a [spaced] text. *)
Lemma join_spaced (w : string) (ws : list string) :
  join " " (w :: ws) = spaced w (map (fun x => (" ", x)) ws).
Proof.
  revert w. induction ws as [|w' ws IH]; intros w; [reflexivity |].
  change (join " " (w :: w' :: ws)) with (w ++ " " ++ join " " (w' :: ws))%string.
  now rewrite IH.
Qed.

Lemma split_join (ws : list string) :
  forallb is_word ws = true -> split (join " " ws) = ws.
Proof.
  destruct ws as [|w ws]; [reflexivity |]. intros Hws.
  simpl in Hws. apply andb_true_iff in Hws as [Hw Hws].
  rewrite join_spaced.
  rewrite <- (append_empty_r (spaced w _)).
  change (split (spaced w (map (fun x => (" ", x)) ws) ++ ""))
    with (split ("" ++ spaced w (map (fun x => (" ", x)) ws) ++ "")).
  rewrite split_spaced; auto.
  - f_equal. rewrite map_map. simpl. apply map_id.
  - clear Hw. induction ws as [|x ws IH]; [reflexivity |].
    simpl in *. apply andb_true_iff in Hws as [Hx Hws].
    rewrite Hx. simpl. now apply IH.
Qed.

(** ** Text and attribute variants *)

Lemma pop_text_absent (e : XmlElement) : text e = None -> pop_text e = (None, e).
Proof. destruct e as [t x a c]. simpl. intros ->. reflexivity. Qed.

Lemma pop_attrib_absent (e : XmlElement) (attr_name : string) :
  attrib e !! attr_name = None -> pop_attrib e attr_name = (None, e).
Proof.
  destruct e as [t x a c]. unfold pop_attrib. simpl. intros H.
  rewrite H. now rewrite delete_id.
Qed.

Lemma text_deserialize_present (e : XmlElement) (content : string) :
  text e = Some content ->
  TextSerializer.deserialize (Some e)
  = (Some (split content), Some (snd (pop_text e))).
Proof. intros H. unfold TextSerializer.deserialize, pop_text. now rewrite H. Qed.

Lemma attribute_deserialize_present (e : XmlElement)
    (attr_name content : string) :
  attrib e !! attr_name = Some content ->
  AttributeSerializer.deserialize attr_name (Some e)
  = (Some (split content), Some (snd (pop_attrib e attr_name))).
Proof.
  intros H. unfold AttributeSerializer.deserialize, pop_attrib. now rewrite H.
Qed.

Lemma text_roundtrip (e : XmlElement) (items : list string) :
  forallb is_word items = true ->
  TextSerializer.deserialize
    (Some (TextSerializer.serialize e (Some items) id false))
  = (Some items, Some (mkXmlElement (tag e) None (attrib e) (elements e))).
Proof.
  intros Hitems. unfold TextSerializer.serialize. simpl.
  rewrite map_id, split_join by exact Hitems. reflexivity.
Qed.

Lemma attribute_roundtrip (attr_name : string) (e : XmlElement)
    (items : list string) :
  forallb is_word items = true ->
  AttributeSerializer.deserialize attr_name
    (Some (AttributeSerializer.serialize attr_name e (Some items) id false))
  = (Some items,
     Some (mkXmlElement (tag e) (text e) (delete attr_name (attrib e))
             (elements e))).
Proof.
  intros Hitems. unfold AttributeSerializer.serialize, AttributeSerializer.deserialize.
  simpl. unfold pop_attrib, set_attribute. simpl.
  rewrite lookup_insert_eq, delete_insert_eq.
  rewrite map_id, split_join by exact Hitems. reflexivity.
Qed.

(** ** Element variant *)

Section ElementLoops.

Context {A R : Type}.
Variable inner : Serializer.t A R.

Lemma serialize_loop_fold (vals : list (option A)) (e : XmlElement)
    (encoder : A -> string) (skip_empty : bool) :
  ElementSerializer.serialize_loop inner e vals encoder skip_empty
  = fold_left
      (fun node val => Serializer.serialize inner node val encoder skip_empty)
      (serialized_items skip_empty vals) e.
Proof.
  revert e. induction vals as [|val vals IH]; intros e; [reflexivity |].
  simpl. destruct (skip_empty && is_None val); simpl; apply IH.
Qed.

Lemma serialize_fold (vals : list (option A)) (e : XmlElement)
    (encoder : A -> string) (skip_empty : bool) :
  ElementSerializer.serialize inner e (Some vals) encoder skip_empty
  = fold_left
      (fun node val => Serializer.serialize inner node val encoder skip_empty)
      (serialized_items skip_empty vals) e.
Proof.
  unfold ElementSerializer.serialize.
  destruct (skip_empty && (length vals =? 0)%nat) eqn:E.
  - apply andb_true_iff in E as [_ E]. apply Nat.eqb_eq in E.
    destruct vals; [reflexivity | discriminate].
  - apply serialize_loop_fold.
Qed.

Lemma deserialize_loop_drains (e : XmlElement) (vs : list R) (e' : XmlElement) :
  drains inner e vs e' ->
  forall (fuel : nat) (acc : list R),
    length vs < fuel ->
    ElementSerializer.deserialize_loop inner fuel e acc = Some (acc ++ vs, e').
Proof.
  induction 1 as [e e' Hd | e v e1 vs e' Hd Hrest IH]; intros fuel acc Hfuel.
  - destruct fuel as [|fuel]; [simpl in Hfuel; lia |].
    simpl. rewrite Hd. now rewrite app_nil_r.
  - destruct fuel as [|fuel]; [simpl in Hfuel; lia |].
    simpl. rewrite Hd. rewrite IH by (simpl in Hfuel; lia).
    now rewrite <- app_assoc.
Qed.

Lemma deserialize_loop_inv (fuel : nat) (e : XmlElement) (acc r : list R)
    (e' : XmlElement) :
  ElementSerializer.deserialize_loop inner fuel e acc = Some (r, e') ->
  exists vs, drains inner e vs e' /\ r = acc ++ vs /\ length vs < fuel.
Proof.
  revert e acc. induction fuel as [|fuel IH]; intros e acc H; [discriminate |].
  simpl in H.
  destruct (Serializer.deserialize inner e) as [[v|] e1] eqn:Hd.
  - apply IH in H as (vs & Hvs & -> & Hlen).
    exists (v :: vs). split; [econstructor; eassumption |].
    split; [now rewrite <- app_assoc | simpl; lia].
  - injection H as <- <-. exists []. split; [now constructor |].
    split; [now rewrite app_nil_r | simpl; lia].
Qed.

End ElementLoops.

Section ElementContract.

Context {A : Type}.
Variable inner : Serializer.t A A.
Variable encoder : A -> string.
Variable skip_empty : bool.
Variable queue : XmlElement -> option (list A).
Hypothesis contract : inner_contract inner encoder skip_empty queue.

Lemma contract_drains (q : list A) (e : XmlElement) :
  queue e = Some q -> exists e', drains inner e q e'.
Proof.
  revert e. induction q as [|v q IH]; intros e Hq.
  - destruct (deserialize_absent _ _ _ _ contract e Hq) as [e' He'].
    exists e'. now constructor.
  - destruct (deserialize_next _ _ _ _ contract e v q Hq) as (e1 & He1 & Hq1).
    destruct (IH e1 Hq1) as [e' He'].
    exists e'. econstructor; eassumption.
Qed.

Lemma contract_serialize_loop (vs q : list A) (e : XmlElement) :
  queue e = Some q ->
  queue (ElementSerializer.serialize_loop inner e (map Some vs) encoder skip_empty)
  = Some (q ++ vs).
Proof.
  revert q e. induction vs as [|v vs IH]; intros q e Hq.
  - simpl. now rewrite app_nil_r.
  - simpl. rewrite andb_false_r.
    rewrite (IH (q ++ [v])).
    + now rewrite <- app_assoc.
    + now apply (serialize_appends _ _ _ _ contract).
Qed.

Lemma contract_serialize (vs q : list A) (e : XmlElement) :
  queue e = Some q ->
  queue (ElementSerializer.serialize inner e (Some (map Some vs)) encoder skip_empty)
  = Some (q ++ vs).
Proof.
  intros Hq. unfold ElementSerializer.serialize.
  destruct (skip_empty && (length (map Some vs) =? 0)%nat) eqn:E.
  - apply andb_true_iff in E as [_ E]. apply Nat.eqb_eq in E.
    destruct vs; [now rewrite app_nil_r | discriminate].
  - now apply contract_serialize_loop.
Qed.

Lemma element_roundtrip (vs q : list A) (e : XmlElement) (fuel : nat) :
  queue e = Some q ->
  length (q ++ vs) < fuel ->
  exists e',
    ElementSerializer.deserialize inner fuel
      (Some (ElementSerializer.serialize inner e (Some (map Some vs))
               encoder skip_empty))
    = Some (or_None (q ++ vs), Some e').
Proof.
  intros Hq Hfuel.
  destruct (contract_drains (q ++ vs) _ (contract_serialize vs q e Hq))
    as [e' He'].
  exists e'. unfold ElementSerializer.deserialize.
  now rewrite (deserialize_loop_drains inner _ _ _ He' fuel [] Hfuel).
Qed.

End ElementContract.

(** The sample child serializer meets the contract, with the identity
    encoder. *)
Lemma child_values_append (t : string) (children : list XmlElement)
    (q : list string) (v : string) :
  child_values t children = Some q ->
  child_values t (children ++ [mkXmlElement t (Some v) ∅ []]) = Some (q ++ [v]).
Proof.
  revert q. induction children as [|sub children IH]; intros q Hq.
  - injection Hq as <-. simpl. now rewrite String.eqb_refl.
  - simpl in *. destruct (String.eqb (tag sub) t); [| discriminate].
    destruct (text sub) as [x|]; [| discriminate].
    destruct (child_values t children) as [xs|]; [| discriminate].
    injection Hq as <-. now rewrite (IH xs eq_refl).
Qed.

Lemma child_serializer_contract (t : string) (skip_empty : bool) :
  inner_contract (child_serializer t) id skip_empty (child_queue t).
Proof.
  constructor; unfold child_queue.
  - intros e q v Hq. simpl. now apply child_values_append.
  - intros e Hq. exists e. simpl. unfold pop_element.
    destruct (elements e) as [|sub rest]; [reflexivity |].
    simpl in Hq. destruct (String.eqb (tag sub) t); [| reflexivity].
    destruct (text sub); [| discriminate].
    destruct (child_values t rest); discriminate.
  - intros e v rest Hq. simpl. unfold pop_element.
    destruct (elements e) as [|sub subs]; [discriminate |].
    simpl in Hq. destruct (String.eqb (tag sub) t); [| discriminate].
    destruct (text sub) as [x|]; [| discriminate].
    destruct (child_values t subs) as [xs|] eqn:Hxs; [| discriminate].
    injection Hq as -> ->. eexists. split; [reflexivity |]. exact Hxs.
Qed.

(** ** Claims on the serializer variants *)

(** C4, as amended.  Round trip with the identity encoder and skip_empty
    false.  Text and attribute variants: for every sequence of words
    (non-empty strings free of whitespace), deserializing what serialize
    wrote returns the sequence, whatever the node held before.  Element
    variant: with an inner serializer that meets its contract, from a node
    with nothing left to read, a non-empty sequence of present values is
    returned as it was written (given enough loop iterations), and the empty
    sequence comes back as absent. *)
Theorem roundtrip_words_and_elements :
  (forall (items : list string) (e : XmlElement) (attr_name : string),
      forallb is_word items = true ->
      fst (TextSerializer.deserialize
             (Some (TextSerializer.serialize e (Some items) id false)))
      = Some items
      /\ fst (AttributeSerializer.deserialize attr_name
                (Some (AttributeSerializer.serialize attr_name e (Some items)
                         id false)))
         = Some items)
  /\ (forall (inner : Serializer.t string string)
        (queue : XmlElement -> option (list string))
        (items : list string) (e : XmlElement) (fuel : nat),
         inner_contract inner id false queue ->
         queue e = Some [] ->
         length items < fuel ->
         exists e',
           ElementSerializer.deserialize inner fuel
             (Some (ElementSerializer.serialize inner e
                      (Some (map Some items)) id false))
           = Some (match items with
                   | [] => None
                   | _ => Some items
                   end, Some e')).
Proof.
  split.
  - intros items e attr_name Hitems. split.
    + now rewrite text_roundtrip.
    + now rewrite attribute_roundtrip.
  - intros inner queue items e fuel Hc Hq Hfuel.
    destruct (element_roundtrip inner id false queue Hc items [] e fuel Hq Hfuel)
      as [e' He'].
    exists e'. exact He'.
Qed.

(** C4, witness: the words a, b, c through the three variants. *)
Lemma roundtrip_words_and_elements_witness :
  (fst (TextSerializer.deserialize
          (Some (TextSerializer.serialize (empty_element "doc")
                   (Some ["a"; "b"; "c"]) id false)))
   = Some ["a"; "b"; "c"]
   /\ fst (AttributeSerializer.deserialize "vals"
             (Some (AttributeSerializer.serialize "vals" (empty_element "doc")
                      (Some ["a"; "b"; "c"]) id false)))
      = Some ["a"; "b"; "c"])
  /\ exists e',
       ElementSerializer.deserialize item_serializer 4
         (Some (ElementSerializer.serialize item_serializer
                  (empty_element "doc")
                  (Some (map Some ["a"; "b"; "c"])) id false))
       = Some (Some ["a"; "b"; "c"], Some e').
Proof.
  split.
  - apply (proj1 roundtrip_words_and_elements
             ["a"; "b"; "c"] (empty_element "doc") "vals").
    reflexivity.
  - apply (proj2 roundtrip_words_and_elements
             item_serializer (child_queue "item")
             ["a"; "b"; "c"] (empty_element "doc") 4).
    + apply child_serializer_contract.
    + reflexivity.
    + simpl. lia.
Defined.

(** C4, counterexample.  The one-element sequence ["a b"] through the text
    variant, onto an empty node, with the identity encoder and skip_empty
    false, comes back as the two strings "a" and "b". *)
Lemma roundtrip_counterexample :
  fst (TextSerializer.deserialize
         (Some (TextSerializer.serialize (empty_element "doc")
                  (Some ["a b"]) id false)))
  = Some ["a"; "b"]
  /\ fst (TextSerializer.deserialize
            (Some (TextSerializer.serialize (empty_element "doc")
                     (Some ["a b"]) id false)))
     <> Some ["a b"].
Proof. split; [reflexivity | discriminate]. Qed.

(** C5.  Text and attribute deserialize return the words of the popped
    content: for content made of optional leading whitespace, words
    separated by whitespace runs of any length, and optional trailing
    whitespace, the result is the words, in order, as raw strings; for
    content that is whitespace only, the result is the empty sequence. *)
Theorem inline_deserialize_splits_on_whitespace :
  forall (e : XmlElement) (attr_name content lead w trail : string)
         (rest : list (string * string)),
    (all_space lead = true ->
     is_word w = true ->
     forallb (fun gw => is_gap (fst gw) && is_word (snd gw)) rest = true ->
     all_space trail = true ->
     content = (lead ++ spaced w rest ++ trail)%string ->
     (text e = Some content ->
      fst (TextSerializer.deserialize (Some e)) = Some (w :: map snd rest))
     /\ (attrib e !! attr_name = Some content ->
         fst (AttributeSerializer.deserialize attr_name (Some e))
         = Some (w :: map snd rest)))
    /\ (all_space content = true ->
        (text e = Some content ->
         fst (TextSerializer.deserialize (Some e)) = Some [])
        /\ (attrib e !! attr_name = Some content ->
            fst (AttributeSerializer.deserialize attr_name (Some e))
            = Some [])).
Proof.
  intros e attr_name content lead w trail rest. split.
  - intros Hlead Hw Hrest Htrail ->. split; intros H.
    + rewrite (text_deserialize_present e _ H). simpl.
      now rewrite split_spaced.
    + rewrite (attribute_deserialize_present e attr_name _ H). simpl.
      now rewrite split_spaced.
  - intros Hall. split; intros H.
    + rewrite (text_deserialize_present e _ H). simpl.
      now rewrite split_all_space.
    + rewrite (attribute_deserialize_present e attr_name _ H). simpl.
      now rewrite split_all_space.
Qed.

(** C5, witness: the content [a   b<TAB>c], as text and as the attribute
    [vals], gives the three strings a, b, c. *)
Lemma inline_deserialize_splits_on_whitespace_witness :
  fst (TextSerializer.deserialize (Some abc_element)) = Some ["a"; "b"; "c"]
  /\ fst (AttributeSerializer.deserialize "vals" (Some abc_element))
     = Some ["a"; "b"; "c"].
Proof.
  destruct (inline_deserialize_splits_on_whitespace
              abc_element "vals" abc_content "" "a" ""
              [("   ", "b"); (TAB, "c")]) as [Hwords _].
  destruct (Hwords eq_refl eq_refl eq_refl eq_refl eq_refl) as [Ht Ha].
  split; [apply Ht | apply Ha]; reflexivity.
Defined.

(** C6, as amended.  Text variant: a present node without text gives the
    empty sequence and is left as it was.  Attribute variant: a present node
    without the attribute gives the empty sequence and is left as it was.
    Element variant: a present node on which the inner serializer finds
    nothing gives absent, and the element variant never returns the empty
    sequence.  Every variant gives absent for an absent node. *)
Theorem emptiness_and_absence :
  forall (e : XmlElement) (attr_name : string),
    (text e = None ->
     TextSerializer.deserialize (Some e) = (Some [], Some e))
    /\ (attrib e !! attr_name = None ->
        AttributeSerializer.deserialize attr_name (Some e) = (Some [], Some e))
    /\ (forall (A R : Type) (inner : Serializer.t A R) (e' : XmlElement)
          (fuel : nat),
           Serializer.deserialize inner e = (None, e') ->
           0 < fuel ->
           ElementSerializer.deserialize inner fuel (Some e)
           = Some (None, Some e'))
    /\ (forall (A R : Type) (inner : Serializer.t A R) (fuel : nat)
          (element : option XmlElement) (r : option (list R))
          (element' : option XmlElement),
           ElementSerializer.deserialize inner fuel element
           = Some (r, element') ->
           r <> Some [])
    /\ TextSerializer.deserialize None = (None, None)
    /\ AttributeSerializer.deserialize attr_name None = (None, None)
    /\ (forall (A R : Type) (inner : Serializer.t A R) (fuel : nat),
           ElementSerializer.deserialize inner fuel None = Some (None, None)).
Proof.
  intros e attr_name. repeat split.
  - intros H. unfold TextSerializer.deserialize.
    now rewrite (pop_text_absent e H).
  - intros H. unfold AttributeSerializer.deserialize.
    now rewrite (pop_attrib_absent e attr_name H).
  - intros A R inner e' fuel Hd Hfuel.
    destruct fuel as [|fuel]; [lia |].
    unfold ElementSerializer.deserialize. simpl. now rewrite Hd.
  - intros A R inner fuel element r element' H.
    unfold ElementSerializer.deserialize in H.
    destruct element as [e0|]; [| now injection H as <- _].
    destruct (ElementSerializer.deserialize_loop inner fuel e0 [])
      as [[result e1]|]; [| discriminate].
    injection H as <- _. destruct result; simpl; congruence.
Qed.

(** C6, witness: an empty node through the three variants, and no node. *)
Lemma emptiness_and_absence_witness :
  TextSerializer.deserialize (Some (empty_element "doc"))
  = (Some [], Some (empty_element "doc"))
  /\ AttributeSerializer.deserialize "vals" (Some (empty_element "doc"))
     = (Some [], Some (empty_element "doc"))
  /\ ElementSerializer.deserialize item_serializer 1
       (Some (empty_element "doc"))
     = Some (None, Some (empty_element "doc")).
Proof.
  destruct (emptiness_and_absence (empty_element "doc") "vals")
    as (Ht & Ha & He & _).
  split; [apply Ht; reflexivity |].
  split; [apply Ha; reflexivity |].
  apply He; [reflexivity | lia].
Defined.

(** C6, counterexample.  The element variant, on a present node with no
    children, gives absent and not the empty sequence. *)
Lemma emptiness_counterexample :
  ElementSerializer.deserialize item_serializer 1 (Some (empty_element "doc"))
  = Some (None, Some (empty_element "doc"))
  /\ ElementSerializer.deserialize item_serializer 1
       (Some (empty_element "doc"))
     <> Some (Some [], Some (empty_element "doc")).
Proof. split; [reflexivity | discriminate]. Qed.

(** C7.  On a present node, the element variant returns the values the
    inner serializer returned, in call order, up to its first absent
    result, or absent when there was none; and whatever it returns comes
    from such a run of calls. *)
Theorem element_deserialize_accumulates :
  forall (A R : Type) (inner : Serializer.t A R) (e : XmlElement),
    (forall (vs : list R) (e' : XmlElement) (fuel : nat),
        drains inner e vs e' ->
        length vs < fuel ->
        ElementSerializer.deserialize inner fuel (Some e)
        = Some (match vs with
                | [] => None
                | _ => Some vs
                end, Some e'))
    /\ (forall (fuel : nat) (r : option (list R)) (element' : option XmlElement),
           ElementSerializer.deserialize inner fuel (Some e)
           = Some (r, element') ->
           exists (vs : list R) (e' : XmlElement),
             drains inner e vs e'
             /\ element' = Some e'
             /\ r = match vs with
                    | [] => None
                    | _ => Some vs
                    end).
Proof.
  intros A R inner e. split.
  - intros vs e' fuel Hd Hfuel. unfold ElementSerializer.deserialize.
    now rewrite (deserialize_loop_drains inner e vs e' Hd fuel [] Hfuel).
  - intros fuel r element' H. unfold ElementSerializer.deserialize in H.
    destruct (ElementSerializer.deserialize_loop inner fuel e [])
      as [[result e1]|] eqn:Hloop; [| discriminate].
    injection H as <- <-.
    apply deserialize_loop_inv in Hloop as (vs & Hd & -> & _).
    exists vs, e1. simpl. auto.
Qed.

(** C7, witness: the children item a, item b are returned as [a; b]. *)
Lemma element_deserialize_accumulates_witness :
  ElementSerializer.deserialize item_serializer 3 (Some ab_children)
  = Some (Some ["a"; "b"], Some (empty_element "doc")).
Proof.
  apply (proj1 (element_deserialize_accumulates _ _ item_serializer ab_children)
           ["a"; "b"] (empty_element "doc") 3).
  - eapply drains_step; [reflexivity |].
    eapply drains_step; [reflexivity |].
    apply drains_stop. reflexivity.
  - simpl. lia.
Defined.

(** C8.  For every variant, serialize with an absent value, or with
    skip_empty true and an empty collection, returns the node as it was. *)
Theorem serialize_absent_or_skipped_is_noop :
  forall (A R : Type) (inner : Serializer.t A R) (e : XmlElement)
         (attr_name : string) (encoder : A -> string) (skip_empty : bool),
    TextSerializer.serialize e None encoder skip_empty = e
    /\ TextSerializer.serialize e (Some []) encoder true = e
    /\ AttributeSerializer.serialize attr_name e None encoder skip_empty = e
    /\ AttributeSerializer.serialize attr_name e (Some []) encoder true = e
    /\ ElementSerializer.serialize inner e None encoder skip_empty = e
    /\ ElementSerializer.serialize inner e (Some []) encoder true = e.
Proof. intros. repeat split. Qed.

(** C9.  The element variant serializes by calling the inner serializer on
    the same node once per element, in order, leaving out an element only
    when skip_empty is true and the element is absent.  With an inner
    serializer that meets its contract, the values are appended to what the
    node holds in the order given, and [x; y; z] written to a node with
    nothing left to read is read back as [x; y; z]. *)
Theorem element_preserves_order :
  forall (A : Type) (inner : Serializer.t A A) (encoder : A -> string)
         (skip_empty : bool),
    (forall (e : XmlElement) (vals : list (option A)),
        ElementSerializer.serialize inner e (Some vals) encoder skip_empty
        = fold_left
            (fun node val =>
               Serializer.serialize inner node val encoder skip_empty)
            (List.filter (fun val => negb (skip_empty && is_None val)) vals)
            e)
    /\ (forall (queue : XmlElement -> option (list A)),
           inner_contract inner encoder skip_empty queue ->
           (forall (e : XmlElement) (q vs : list A),
               queue e = Some q ->
               queue (ElementSerializer.serialize inner e (Some (map Some vs))
                        encoder skip_empty)
               = Some (q ++ vs))
           /\ (forall (e : XmlElement) (x y z : A) (fuel : nat),
                  queue e = Some [] ->
                  3 < fuel ->
                  exists e',
                    ElementSerializer.deserialize inner fuel
                      (Some (ElementSerializer.serialize inner e
                               (Some [Some x; Some y; Some z])
                               encoder skip_empty))
                    = Some (Some [x; y; z], Some e'))).
Proof.
  intros A inner encoder skip_empty. split.
  - intros e vals. apply serialize_fold.
  - intros queue Hc. split.
    + intros e q vs Hq. now apply (contract_serialize inner encoder skip_empty queue).
    + intros e x y z fuel Hq Hfuel.
      apply (element_roundtrip inner encoder skip_empty queue Hc [x; y; z] [] e fuel Hq).
      simpl. lia.
Qed.

(** C9, witness: x, y, z under the tag item. *)
Lemma element_preserves_order_witness :
  exists e',
    ElementSerializer.deserialize item_serializer 4
      (Some (ElementSerializer.serialize item_serializer (empty_element "doc")
               (Some [Some "x"; Some "y"; Some "z"]) id false))
    = Some (Some ["x"; "y"; "z"], Some e').
Proof.
  destruct (proj2 (element_preserves_order string item_serializer id false)
              (child_queue "item") (child_serializer_contract "item" false))
    as [_ Hxyz].
  apply (Hxyz (empty_element "doc") "x" "y" "z" 4); [reflexivity | lia].
Defined.

(** ** Claims on construction *)

Lemma has_abc_metaclass_BaseXmlModel : has_abc_metaclass BaseXmlModel = true.
Proof. reflexivity. Qed.

Lemma has_abc_metaclass_tuple : has_abc_metaclass tuple = false.
Proof. reflexivity. Qed.


(** The attribute variant's constructor on a class type. *)
Lemma attribute_init_class {FieldInfo A R : Type} (ext : Externals FieldInfo A R)
    (model : Model) (model_field : ModelField FieldInfo)
    (ctx : Serializer.Context) (mro : list string) (field_name : string) :
  has_one_sub_field model_field = true ->
  type_ model_field = PyClass mro ->
  name model_field = Some field_name ->
  run (AttributeSerializer.__init__ (A:=A) (R:=R) ext model model_field ctx)
  = ([],
     if existsb (String.eqb BaseXmlModel) mro then
       Raise (ModelFieldError (__name__ model) (Some field_name)
                "Inline list value should be of scalar type")
     else
       Ok (Attribute
             (from_alias_uri ext field_name
                (snd (fst (_get_entity_info ext model_field)))
                (snd (_get_entity_info ext model_field)) true))).
Proof.
  intros Hone Htype Hname.
  unfold run, AttributeSerializer.__init__, bind, assert, issubclass, ret, raise.
  rewrite Hone, Htype. cbv beta iota.
  destruct (existsb (String.eqb BaseXmlModel) mro).
  - now rewrite Hname.
  - destruct (_get_entity_info ext model_field) as [[n ns] nsmap].
    now rewrite Hname.
Qed.

(** The text variant's constructor on a class type. *)
Lemma text_init_class {FieldInfo A R : Type} (model : Model)
    (model_field : ModelField FieldInfo) (ctx : Serializer.Context)
    (mro : list string) :
  has_one_sub_field model_field = true ->
  type_ model_field = PyClass mro ->
  run (TextSerializer.__init__ (A:=A) (R:=R) model model_field ctx)
  = ([],
     if existsb (String.eqb BaseXmlModel) mro
        || existsb (String.eqb tuple) mro then
       Raise (ModelFieldError (__name__ model) (name model_field)
                "Inline list value should be of scalar type")
     else Ok Text).
Proof.
  intros Hone Htype.
  unfold run, TextSerializer.__init__, bind, assert, issubclass, isclass, ret,
    raise.
  rewrite Hone, Htype. cbv beta iota.
  destruct (existsb (String.eqb BaseXmlModel) mro); [reflexivity |].
  destruct (existsb (String.eqb tuple) mro); reflexivity.
Qed.

(** The text variant's constructor on an object that is not a class. *)
Lemma text_init_non_class {FieldInfo A R : Type} (model : Model)
    (model_field : ModelField FieldInfo) (ctx : Serializer.Context)
    (repr : string) :
  has_one_sub_field model_field = true ->
  type_ model_field = PyNonClass repr ->
  run (TextSerializer.__init__ (A:=A) (R:=R) model model_field ctx)
  = ([], Raise (TypeError "issubclass() arg 1 must be a class")).
Proof.
  intros Hone Htype. unfold run, TextSerializer.__init__, bind, assert.
  now rewrite Hone, Htype.
Qed.

(** C1.  When the shape of the single item sub-field classifies as a
    collection, build raises ModelFieldError with the model's name, the
    field's name and the message on collection elements, and no serializer
    has been constructed. *)
Theorem nested_collection_rejected :
  forall (FieldInfo A R : Type) (ext : Externals FieldInfo A R)
         (model : Model) (model_field item : ModelField FieldInfo)
         (field_location : Location) (ctx : Serializer.Context),
    sub_fields model_field = Some [item] ->
    from_shape ext (shape item) = HOMOGENEOUS
    \/ from_shape ext (shape item) = HETEROGENEOUS ->
    run (HomogeneousSerializerFactory.build ext model model_field
           field_location ctx)
    = ([],
       Raise (ModelFieldError (__name__ model) (name model_field)
                "collection elements can't be of collection type")).
Proof.
  intros FieldInfo A R ext model model_field item field_location ctx Hsub Hshape.
  unfold run, HomogeneousSerializerFactory.build. rewrite Hsub.
  destruct Hshape as [-> | ->]; reflexivity.
Qed.

(** C1, witness: a list of lists (item shape 2) and a list of tuples (item
    shape 5), at the element location. *)
Lemma nested_collection_rejected_witness :
  run (HomogeneousSerializerFactory.build sample_externals (sample_model false)
         (sample_field str_class 2) ELEMENT sample_ctx)
  = ([],
     Raise (ModelFieldError "Doc" (Some "values")
              "collection elements can't be of collection type"))
  /\ run (HomogeneousSerializerFactory.build sample_externals
            (sample_model false) (sample_field str_class 5) ATTRIBUTE
            sample_ctx)
     = ([],
        Raise (ModelFieldError "Doc" (Some "values")
                 "collection elements can't be of collection type")).
Proof.
  split.
  - apply (nested_collection_rejected unit string string sample_externals
             (sample_model false) (sample_field str_class 2)
             (sample_item str_class 2) ELEMENT sample_ctx eq_refl).
    left. reflexivity.
  - apply (nested_collection_rejected unit string string sample_externals
             (sample_model false) (sample_field str_class 5)
             (sample_item str_class 5) ATTRIBUTE sample_ctx eq_refl).
    right. reflexivity.
Defined.




(** C3, at the failing input.  For an item type that is a subclass of tuple
    (a named tuple class) the text variant's constructor raises
    ModelFieldError, and the attribute variant's constructor returns the
    serializer. *)
Theorem attribute_accepts_tuple_items :
  run (TextSerializer.__init__ (A:=string) (R:=string) (sample_model false)
         (sample_field namedtuple_class 1) sample_ctx)
  = ([],
     Raise (ModelFieldError "Doc" (Some "values")
              "Inline list value should be of scalar type"))
  /\ run (AttributeSerializer.__init__ sample_externals (sample_model false)
            (sample_field namedtuple_class 1) sample_ctx)
     = ([], Ok (Attribute "values"))
  /\ run (HomogeneousSerializerFactory.build sample_externals
            (sample_model false) (sample_field namedtuple_class 1) ATTRIBUTE
            sample_ctx)
     = ([AttributeSerializerClass], Ok (Attribute "values")).
Proof.
  split; [| split].
  - now rewrite (text_init_class (sample_model false)
                   (sample_field namedtuple_class 1) sample_ctx
                   ["Point"; "tuple"; "object"]).
  - now rewrite (attribute_init_class sample_externals (sample_model false)
                   (sample_field namedtuple_class 1) sample_ctx
                   ["Point"; "tuple"; "object"] "values").
  - reflexivity.
Qed.

(** C10.  The tuple test of the text variant's guard is not protected by
    the class test: for an item type that is not a class, the outcome of
    the constructor is the outcome of [issubclass(type_, tuple)].  For an
    object that is not a class and has no bases, such as the typing form
    [Union[int, str]], that is the TypeError of issubclass: the constructor
    neither returns a serializer nor raises ModelFieldError.  For a class
    the constructor does one of the two. *)
Theorem text_guard_type_error_on_non_class :
  forall (FieldInfo A R : Type) (model : Model)
         (model_field : ModelField FieldInfo) (ctx : Serializer.Context),
    has_one_sub_field model_field = true ->
    (forall repr : string,
        type_ model_field = PyNonClass repr ->
        run (TextSerializer.__init__ (A:=A) (R:=R) model model_field ctx)
        = ([], Raise (TypeError "issubclass() arg 1 must be a class")))
    /\ (isclass (type_ model_field) = false ->
        run (TextSerializer.__init__ (A:=A) (R:=R) model model_field ctx)
        = ([],
           match snd (run (issubclass (type_ model_field) tuple)) with
           | Raise err => Raise err
           | Ok true =>
               Raise (ModelFieldError (__name__ model) (name model_field)
                        "Inline list value should be of scalar type")
           | Ok false => Ok Text
           end))
    /\ (forall mro : list string,
           type_ model_field = PyClass mro ->
           run (TextSerializer.__init__ (A:=A) (R:=R) model model_field ctx)
           = ([], Ok Text)
           \/ run (TextSerializer.__init__ (A:=A) (R:=R) model model_field ctx)
              = ([],
                 Raise (ModelFieldError (__name__ model) (name model_field)
                          "Inline list value should be of scalar type"))).
Proof.
  intros FieldInfo A R model model_field ctx Hone. split; [| split].
  - intros repr Htype.
    now apply (text_init_non_class model model_field ctx repr).
  - intros Hclass.
    unfold run, TextSerializer.__init__, bind, assert, issubclass, isclass, ret,
      raise in *.
    rewrite Hone.
    destruct (type_ model_field) as [mro | repr | repr origin_mro];
      [discriminate | reflexivity |].
    rewrite has_abc_metaclass_tuple. cbv beta iota. cbn [snd].
    destruct (existsb (String.eqb tuple) (tl origin_mro)); reflexivity.
  - intros mro Htype.
    rewrite (text_init_class model model_field ctx mro Hone Htype).
    destruct (existsb (String.eqb BaseXmlModel) mro
              || existsb (String.eqb tuple) mro); auto.
Qed.

(** C10, witness: items of type [Union[int, str]]. *)
Lemma text_guard_type_error_on_non_class_witness :
  run (TextSerializer.__init__ (A:=string) (R:=string) (sample_model false)
         (sample_field union_form 1) sample_ctx)
  = ([], Raise (TypeError "issubclass() arg 1 must be a class")).
Proof.
  apply (proj1 (text_guard_type_error_on_non_class unit string string
                  (sample_model false) (sample_field union_form 1) sample_ctx
                  eq_refl)
           "typing.Union[int, str]").
  reflexivity.
Defined.

(** * Further properties *)

(** ** Splitting and joining *)

Lemma no_space_app (a b : string) :
  no_space (a ++ b) = no_space a && no_space b.
Proof.
  induction a as [|c a IH]; simpl; [reflexivity |].
  now rewrite IH, andb_assoc.
Qed.

Lemma append_nonempty_word (w : string) (c : ascii) :
  no_space w = true -> isspace c = false ->
  is_word (w ++ String c "") = true.
Proof.
  intros Hw Hc.
  assert (H : no_space (w ++ String c "") = true).
  { rewrite no_space_app, Hw. simpl. now rewrite Hc. }
  destruct w; simpl in *; exact H.
Qed.

(** Whatever the scan returns is made of words. *)
Lemma split_from_words (s word : string) :
  no_space word = true -> forallb is_word (split_from s word) = true.
Proof.
  revert word. induction s as [|c s IH]; intros word Hword; simpl.
  - destruct word; [reflexivity |]. simpl in *. now rewrite Hword.
  - destruct (isspace c) eqn:Hc.
    + destruct word as [|x word]; [now apply IH |].
      change (forallb is_word (String x word :: split_from s "")) with
        (is_word (String x word) && forallb is_word (split_from s "")).
      rewrite (IH "" eq_refl), andb_true_r. exact Hword.
    + apply IH. rewrite no_space_app, Hword. simpl. now rewrite Hc.
Qed.

Lemma split_words (s : string) : forallb is_word (split s) = true.
Proof. now apply split_from_words. Qed.

(** A whitespace character cuts the text in two. *)
Lemma split_from_cut (a b word : string) (c : ascii) :
  isspace c = true ->
  split_from (a ++ String c b) word = split_from a word ++ split b.
Proof.
  intros Hc. revert word. induction a as [|x a IH]; intros word; simpl.
  - rewrite Hc. destruct word; reflexivity.
  - destruct (isspace x).
    + destruct word; [apply IH |]. rewrite IH. reflexivity.
    + apply IH.
Qed.

Lemma split_join_concat (xs : list string) :
  split (join " " xs) = concat (map split xs).
Proof.
  induction xs as [|x xs IH]; [reflexivity |].
  destruct xs as [|y xs].
  - simpl. now rewrite app_nil_r.
  - change (join " " (x :: y :: xs))
      with (x ++ String " "%char (join " " (y :: xs)))%string.
    unfold split at 1. rewrite split_from_cut by reflexivity.
    rewrite IH. reflexivity.
Qed.

(** ** Text and attribute variants, further *)

Lemma text_deserialize_value (e : XmlElement) :
  fst (TextSerializer.deserialize (Some e))
  = Some (match text e with
          | None => []
          | Some t => split t
          end).
Proof.
  unfold TextSerializer.deserialize, pop_text. now destruct (text e).
Qed.

Lemma attribute_deserialize_value (attr_name : string) (e : XmlElement) :
  fst (AttributeSerializer.deserialize attr_name (Some e))
  = Some (match attrib e !! attr_name with
          | None => []
          | Some t => split t
          end).
Proof.
  unfold AttributeSerializer.deserialize, pop_attrib.
  now destruct (attrib e !! attr_name).
Qed.

Lemma text_deserialize_node (e : XmlElement) :
  snd (TextSerializer.deserialize (Some e))
  = Some (mkXmlElement (tag e) None (attrib e) (elements e)).
Proof.
  unfold TextSerializer.deserialize, pop_text. now destruct (text e).
Qed.

Lemma attribute_deserialize_node (attr_name : string) (e : XmlElement) :
  snd (AttributeSerializer.deserialize attr_name (Some e))
  = Some (mkXmlElement (tag e) (text e) (delete attr_name (attrib e))
            (elements e)).
Proof.
  unfold AttributeSerializer.deserialize, pop_attrib.
  now destruct (attrib e !! attr_name).
Qed.

Lemma text_serialize_written {A : Type} (e : XmlElement) (vals : list A)
    (encoder : A -> string) (skip_empty : bool) :
  skip_empty && (length vals =? 0)%nat = false ->
  TextSerializer.serialize e (Some vals) encoder skip_empty
  = set_text e (join " " (map encoder vals)).
Proof. intros H. unfold TextSerializer.serialize. now rewrite H. Qed.

Lemma attribute_serialize_written {A : Type} (attr_name : string)
    (e : XmlElement) (vals : list A) (encoder : A -> string)
    (skip_empty : bool) :
  skip_empty && (length vals =? 0)%nat = false ->
  AttributeSerializer.serialize attr_name e (Some vals) encoder skip_empty
  = set_attribute e attr_name (join " " (map encoder vals)).
Proof. intros H. unfold AttributeSerializer.serialize. now rewrite H. Qed.

(** Text serialize either leaves the node or sets its text. *)
Lemma text_serialize_cases {A : Type} (e : XmlElement)
    (value : option (list A)) (encoder : A -> string) (skip_empty : bool) :
  TextSerializer.serialize e value encoder skip_empty = e
  \/ exists t, TextSerializer.serialize e value encoder skip_empty = set_text e t.
Proof.
  unfold TextSerializer.serialize. destruct value as [vals|]; [| now left].
  destruct (skip_empty && (length vals =? 0)%nat); [now left | right; eauto].
Qed.

(** Attribute serialize either leaves the node or sets its attribute. *)
Lemma attribute_serialize_cases {A : Type} (attr_name : string)
    (e : XmlElement) (value : option (list A)) (encoder : A -> string)
    (skip_empty : bool) :
  AttributeSerializer.serialize attr_name e value encoder skip_empty = e
  \/ exists t,
       AttributeSerializer.serialize attr_name e value encoder skip_empty
       = set_attribute e attr_name t.
Proof.
  unfold AttributeSerializer.serialize. destruct value as [vals|]; [| now left].
  destruct (skip_empty && (length vals =? 0)%nat); [now left | right; eauto].
Qed.

Lemma text_deserialize_words (element : option XmlElement)
    (items : list string) :
  fst (TextSerializer.deserialize element) = Some items ->
  forallb is_word items = true.
Proof.
  destruct element as [e|]; [| discriminate].
  rewrite text_deserialize_value. intros H. injection H as <-.
  destruct (text e); [apply split_words | reflexivity].
Qed.

Lemma attribute_deserialize_words (attr_name : string)
    (element : option XmlElement) (items : list string) :
  fst (AttributeSerializer.deserialize attr_name element) = Some items ->
  forallb is_word items = true.
Proof.
  destruct element as [e|]; [| discriminate].
  rewrite attribute_deserialize_value. intros H. injection H as <-.
  destruct (attrib e !! attr_name); [apply split_words | reflexivity].
Qed.

(** X1.  Every string that the text or the attribute variant deserializes
    is a word: it is not empty and holds no whitespace. *)
Theorem inline_deserialize_returns_words :
  forall (element : option XmlElement) (attr_name : string)
         (items : list string),
    (fst (TextSerializer.deserialize element) = Some items ->
     forallb is_word items = true)
    /\ (fst (AttributeSerializer.deserialize attr_name element) = Some items ->
        forallb is_word items = true).
Proof.
  intros element attr_name items. split.
  - apply text_deserialize_words.
  - apply attribute_deserialize_words.
Qed.

(** X1, witness: the text [t1 t2] and the attribute [a] of a node. *)
Lemma inline_deserialize_returns_words_witness :
  forallb is_word ["t1"; "t2"] = true /\ forallb is_word ["1"; "2"] = true.
Proof.
  split.
  - apply (proj1 (inline_deserialize_returns_words (Some busy_element) "a"
                    ["t1"; "t2"])).
    reflexivity.
  - apply (proj2 (inline_deserialize_returns_words (Some busy_element) "a"
                    ["1"; "2"])).
    reflexivity.
Defined.

(** X2.  With skip_empty false, what the text and attribute variants read
    back after a write is the words of every encoded item, item after item:
    an item whose encoding holds whitespace comes back as several strings,
    an item whose encoding is empty or blank as none. *)
Theorem inline_roundtrip_flattens :
  forall (A : Type) (e : XmlElement) (attr_name : string) (vals : list A)
         (encoder : A -> string),
    fst (TextSerializer.deserialize
           (Some (TextSerializer.serialize e (Some vals) encoder false)))
    = Some (concat (map (fun v => split (encoder v)) vals))
    /\ fst (AttributeSerializer.deserialize attr_name
              (Some (AttributeSerializer.serialize attr_name e (Some vals)
                       encoder false)))
       = Some (concat (map (fun v => split (encoder v)) vals)).
Proof.
  intros A e attr_name vals encoder.
  rewrite text_deserialize_value, attribute_deserialize_value.
  rewrite text_serialize_written, attribute_serialize_written by reflexivity.
  unfold set_text, set_attribute. simpl. rewrite lookup_insert_eq.
  rewrite split_join_concat, map_map. split; reflexivity.
Qed.

(** X3.  What one of the two inline variants has deserialized survives a
    further round trip through either of them unchanged (identity encoder,
    skip_empty false). *)
Theorem inline_reserialize_stable :
  forall (element : option XmlElement) (attr_name attr_name' : string)
         (e' : XmlElement) (items : list string),
    fst (TextSerializer.deserialize element) = Some items
    \/ fst (AttributeSerializer.deserialize attr_name element) = Some items ->
    fst (TextSerializer.deserialize
           (Some (TextSerializer.serialize e' (Some items) id false)))
    = Some items
    /\ fst (AttributeSerializer.deserialize attr_name'
              (Some (AttributeSerializer.serialize attr_name' e' (Some items)
                       id false)))
       = Some items.
Proof.
  intros element attr_name attr_name' e' items H.
  assert (Hw : forallb is_word items = true).
  { destruct H as [H | H];
      eauto using text_deserialize_words, attribute_deserialize_words. }
  rewrite text_roundtrip, attribute_roundtrip by exact Hw. split; reflexivity.
Qed.

(** X3, witness: the content [a   b<TAB>c], read and written again. *)
Lemma inline_reserialize_stable_witness :
  fst (TextSerializer.deserialize
         (Some (TextSerializer.serialize (empty_element "doc")
                  (Some ["a"; "b"; "c"]) id false)))
  = Some ["a"; "b"; "c"]
  /\ fst (AttributeSerializer.deserialize "vals"
            (Some (AttributeSerializer.serialize "vals" (empty_element "doc")
                     (Some ["a"; "b"; "c"]) id false)))
     = Some ["a"; "b"; "c"].
Proof.
  apply (inline_reserialize_stable (Some abc_element) "vals" "vals"
           (empty_element "doc") ["a"; "b"; "c"]).
  left. reflexivity.
Defined.

Lemma text_serialize_frame {A : Type} (e : XmlElement)
    (value : option (list A)) (encoder : A -> string) (skip_empty : bool) :
  tag (TextSerializer.serialize e value encoder skip_empty) = tag e
  /\ attrib (TextSerializer.serialize e value encoder skip_empty) = attrib e
  /\ elements (TextSerializer.serialize e value encoder skip_empty)
     = elements e.
Proof.
  destruct (text_serialize_cases e value encoder skip_empty) as [-> | [t ->]];
    auto.
Qed.

Lemma attribute_serialize_frame {A : Type} (attr_name : string)
    (e : XmlElement) (value : option (list A)) (encoder : A -> string)
    (skip_empty : bool) :
  tag (AttributeSerializer.serialize attr_name e value encoder skip_empty)
  = tag e
  /\ text (AttributeSerializer.serialize attr_name e value encoder skip_empty)
     = text e
  /\ elements (AttributeSerializer.serialize attr_name e value encoder
                 skip_empty)
     = elements e
  /\ forall other : string,
       other <> attr_name ->
       attrib (AttributeSerializer.serialize attr_name e value encoder
                 skip_empty) !! other
       = attrib e !! other.
Proof.
  destruct (attribute_serialize_cases attr_name e value encoder skip_empty)
    as [-> | [t ->]]; [auto |].
  repeat split. intros other Hother. simpl.
  now rewrite lookup_insert_ne by congruence.
Qed.

(** X4.  Frame of the inline variants' serialize: the text variant leaves
    the tag, the attributes and the children of the node as they were; the
    attribute variant leaves the tag, the text, the children and every
    other attribute as they were. *)
Theorem inline_serialize_frame :
  forall (A : Type) (e : XmlElement) (attr_name : string)
         (value : option (list A)) (encoder : A -> string)
         (skip_empty : bool),
    (tag (TextSerializer.serialize e value encoder skip_empty) = tag e
     /\ attrib (TextSerializer.serialize e value encoder skip_empty) = attrib e
     /\ elements (TextSerializer.serialize e value encoder skip_empty)
        = elements e)
    /\ (tag (AttributeSerializer.serialize attr_name e value encoder skip_empty)
        = tag e
        /\ text (AttributeSerializer.serialize attr_name e value encoder
                   skip_empty)
           = text e
        /\ elements (AttributeSerializer.serialize attr_name e value encoder
                       skip_empty)
           = elements e
        /\ forall other : string,
             other <> attr_name ->
             attrib (AttributeSerializer.serialize attr_name e value encoder
                       skip_empty) !! other
             = attrib e !! other).
Proof.
  intros A e attr_name value encoder skip_empty. split.
  - apply text_serialize_frame.
  - apply attribute_serialize_frame.
Qed.

(** X4, witness: writing the attribute [a] keeps the attribute [b]. *)
Lemma inline_serialize_frame_witness :
  attrib (AttributeSerializer.serialize "a" busy_element (Some ["9"]) id false)
    !! "b"
  = attrib busy_element !! "b".
Proof.
  destruct (inline_serialize_frame string busy_element "a" (Some ["9"]) id
              false) as [_ (_ & _ & _ & H)].
  apply H. discriminate.
Defined.

(** X5.  Overwrite semantics: a write that is not skipped replaces whatever
    an earlier call on the same node wrote; the node is as if the earlier
    call had not happened. *)
Theorem inline_serialize_overwrites :
  forall (A B : Type) (e : XmlElement) (attr_name : string)
         (earlier : option (list A)) (encoder1 : A -> string)
         (skip_empty1 : bool) (vals : list B) (encoder : B -> string)
         (skip_empty : bool),
    skip_empty && (length vals =? 0)%nat = false ->
    TextSerializer.serialize
      (TextSerializer.serialize e earlier encoder1 skip_empty1)
      (Some vals) encoder skip_empty
    = TextSerializer.serialize e (Some vals) encoder skip_empty
    /\ AttributeSerializer.serialize attr_name
         (AttributeSerializer.serialize attr_name e earlier encoder1 skip_empty1)
         (Some vals) encoder skip_empty
       = AttributeSerializer.serialize attr_name e (Some vals) encoder
           skip_empty.
Proof.
  intros A B e attr_name earlier encoder1 skip_empty1 vals encoder skip_empty H.
  rewrite !text_serialize_written, !attribute_serialize_written by exact H.
  split.
  - destruct (text_serialize_cases e earlier encoder1 skip_empty1)
      as [-> | [t ->]]; reflexivity.
  - destruct (attribute_serialize_cases attr_name e earlier encoder1 skip_empty1)
      as [-> | [t ->]]; [reflexivity |].
    unfold set_attribute. simpl. now rewrite insert_insert_eq.
Qed.

(** X5, witness: [x y] written over [a b c]. *)
Lemma inline_serialize_overwrites_witness :
  TextSerializer.serialize
    (TextSerializer.serialize (empty_element "doc") (Some ["a"; "b"; "c"]) id
       false)
    (Some ["x"; "y"]) id true
  = TextSerializer.serialize (empty_element "doc") (Some ["x"; "y"]) id true.
Proof.
  apply (inline_serialize_overwrites string string (empty_element "doc") "vals"
           (Some ["a"; "b"; "c"]) id false ["x"; "y"] id true).
  reflexivity.
Defined.

(** X6.  Reads consume: after the text or the attribute variant has
    deserialized a node, deserializing the same node again gives the empty
    sequence and changes nothing more. *)
Theorem inline_deserialize_consumes :
  forall (e : XmlElement) (attr_name : string),
    TextSerializer.deserialize (snd (TextSerializer.deserialize (Some e)))
    = (Some [], snd (TextSerializer.deserialize (Some e)))
    /\ AttributeSerializer.deserialize attr_name
         (snd (AttributeSerializer.deserialize attr_name (Some e)))
       = (Some [], snd (AttributeSerializer.deserialize attr_name (Some e))).
Proof.
  intros e attr_name.
  rewrite text_deserialize_node, attribute_deserialize_node. split.
  - reflexivity.
  - unfold AttributeSerializer.deserialize, pop_attrib. simpl.
    now rewrite lookup_delete_eq, delete_delete_eq.
Qed.

(** X7.  Writes of one inline field do not change what another reads: the
    attribute variant on another attribute, and the text variant, leave the
    value read from an attribute as it was; the attribute variant leaves the
    value read from the text as it was. *)
Theorem inline_writes_independent :
  forall (A : Type) (e : XmlElement) (a b : string)
         (value : option (list A)) (encoder : A -> string)
         (skip_empty : bool),
    a <> b ->
    fst (AttributeSerializer.deserialize a
           (Some (AttributeSerializer.serialize b e value encoder skip_empty)))
    = fst (AttributeSerializer.deserialize a (Some e))
    /\ fst (AttributeSerializer.deserialize a
              (Some (TextSerializer.serialize e value encoder skip_empty)))
       = fst (AttributeSerializer.deserialize a (Some e))
    /\ fst (TextSerializer.deserialize
              (Some (AttributeSerializer.serialize b e value encoder skip_empty)))
       = fst (TextSerializer.deserialize (Some e)).
Proof.
  intros A e a b value encoder skip_empty Hab.
  rewrite !attribute_deserialize_value, !text_deserialize_value.
  destruct (text_serialize_frame e value encoder skip_empty)
    as (_ & Hattr & _).
  destruct (attribute_serialize_frame b e value encoder skip_empty)
    as (_ & Htext & _ & Hother).
  now rewrite Hattr, Htext, (Hother a Hab).
Qed.

(** X7, witness: writing the attribute [b] keeps what [a] reads. *)
Lemma inline_writes_independent_witness :
  fst (AttributeSerializer.deserialize "a"
         (Some (AttributeSerializer.serialize "b" busy_element (Some ["9"]) id
                  false)))
  = fst (AttributeSerializer.deserialize "a" (Some busy_element)).
Proof.
  apply (inline_writes_independent string busy_element "a" "b" (Some ["9"]) id
           false).
  discriminate.
Defined.

(** X8.  Reads of one inline field do not consume another: after the
    attribute variant has read another attribute, or the text variant has
    read the text, an attribute still reads the same; after the attribute
    variant has read, the text still reads the same. *)
Theorem inline_reads_independent :
  forall (e : XmlElement) (a b : string),
    a <> b ->
    fst (AttributeSerializer.deserialize a
           (snd (AttributeSerializer.deserialize b (Some e))))
    = fst (AttributeSerializer.deserialize a (Some e))
    /\ fst (AttributeSerializer.deserialize a
              (snd (TextSerializer.deserialize (Some e))))
       = fst (AttributeSerializer.deserialize a (Some e))
    /\ fst (TextSerializer.deserialize
              (snd (AttributeSerializer.deserialize b (Some e))))
       = fst (TextSerializer.deserialize (Some e)).
Proof.
  intros e a b Hab.
  rewrite text_deserialize_node, attribute_deserialize_node.
  rewrite !attribute_deserialize_value, !text_deserialize_value. simpl.
  now rewrite lookup_delete_ne by congruence.
Qed.

(** X8, witness: reading the attribute [b] keeps what [a] reads. *)
Lemma inline_reads_independent_witness :
  fst (AttributeSerializer.deserialize "a"
         (snd (AttributeSerializer.deserialize "b" (Some busy_element))))
  = fst (AttributeSerializer.deserialize "a" (Some busy_element)).
Proof.
  apply (inline_reads_independent busy_element "a" "b"). discriminate.
Defined.

(** ** Element variant, further *)

Lemma serialized_items_app {A : Type} (skip_empty : bool)
    (v1 v2 : list (option A)) :
  serialized_items skip_empty (v1 ++ v2)
  = serialized_items skip_empty v1 ++ serialized_items skip_empty v2.
Proof. unfold serialized_items. apply List.filter_app. Qed.

Lemma serialized_items_idemp {A : Type} (skip_empty : bool)
    (vals : list (option A)) :
  serialized_items skip_empty (serialized_items skip_empty vals)
  = serialized_items skip_empty vals.
Proof.
  unfold serialized_items. induction vals as [|v vals IH]; [reflexivity |].
  simpl. destruct (negb (skip_empty && is_None v)) eqn:E; [| exact IH].
  simpl. now rewrite E, IH.
Qed.

Lemma serialized_items_all_absent {A : Type} (vals : list (option A)) :
  forallb is_None vals = true -> serialized_items true vals = [].
Proof.
  unfold serialized_items. induction vals as [|v vals IH]; [reflexivity |].
  simpl. intros H. apply andb_true_iff in H as [Hv H].
  rewrite Hv. simpl. now apply IH.
Qed.

(** X9.  The element variant serializes a concatenation as it serializes
    the two parts one after the other onto the same node. *)
Theorem element_serialize_app :
  forall (A R : Type) (inner : Serializer.t A R) (e : XmlElement)
         (v1 v2 : list (option A)) (encoder : A -> string)
         (skip_empty : bool),
    ElementSerializer.serialize inner e (Some (v1 ++ v2)) encoder skip_empty
    = ElementSerializer.serialize inner
        (ElementSerializer.serialize inner e (Some v1) encoder skip_empty)
        (Some v2) encoder skip_empty.
Proof.
  intros A R inner e v1 v2 encoder skip_empty.
  rewrite !serialize_fold, serialized_items_app. apply fold_left_app.
Qed.

(** X10.  With skip_empty true the absent elements of a collection do not
    count: the element variant writes what it writes for the collection
    without them, and a collection of absent elements only is not written
    at all. *)
Theorem element_serialize_skips_absent :
  forall (A R : Type) (inner : Serializer.t A R) (e : XmlElement)
         (vals : list (option A)) (encoder : A -> string),
    ElementSerializer.serialize inner e (Some vals) encoder true
    = ElementSerializer.serialize inner e
        (Some (List.filter (fun val => negb (is_None val)) vals)) encoder true
    /\ (forallb is_None vals = true ->
        ElementSerializer.serialize inner e (Some vals) encoder true = e).
Proof.
  intros A R inner e vals encoder. split.
  - rewrite !serialize_fold.
    change (List.filter (fun val => negb (is_None val)) vals)
      with (serialized_items true vals).
    now rewrite serialized_items_idemp.
  - intros H. rewrite serialize_fold.
    now rewrite serialized_items_all_absent.
Qed.

(** X10, witness: a collection of two absent elements. *)
Lemma element_serialize_skips_absent_witness :
  ElementSerializer.serialize item_serializer ab_children (Some [None; None])
    id true
  = ab_children.
Proof.
  apply (proj2 (element_serialize_skips_absent string string item_serializer
                  ab_children [None; None] id)).
  reflexivity.
Defined.

(** X11.  The element variant touches the node through the inner
    serializer only: a property of nodes that every call of the inner
    serializer keeps is kept by serialize and by deserialize. *)
Theorem element_preserves_invariant :
  forall (A R : Type) (inner : Serializer.t A R) (P : XmlElement -> Prop),
    ((forall (n : XmlElement) (val : option A) (encoder : A -> string)
             (skip_empty : bool),
         P n -> P (Serializer.serialize inner n val encoder skip_empty)) ->
     forall (e : XmlElement) (value : option (list (option A)))
            (encoder : A -> string) (skip_empty : bool),
       P e -> P (ElementSerializer.serialize inner e value encoder skip_empty))
    /\ ((forall n : XmlElement,
            P n -> P (snd (Serializer.deserialize inner n))) ->
        forall (fuel : nat) (e : XmlElement) (r : option (list R))
               (e' : XmlElement),
          P e ->
          ElementSerializer.deserialize inner fuel (Some e) = Some (r, Some e') ->
          P e').
Proof.
  intros A R inner P. split.
  - intros Hinner e value encoder skip_empty He.
    destruct value as [vals|]; [| exact He].
    rewrite serialize_fold.
    generalize (serialized_items skip_empty vals). intros items.
    revert e He. induction items as [|val items IH]; intros e He; [exact He |].
    simpl. apply IH. now apply Hinner.
  - intros Hinner fuel e r e' He H.
    unfold ElementSerializer.deserialize in H.
    destruct (ElementSerializer.deserialize_loop inner fuel e [])
      as [[result e1]|] eqn:Hloop; [| discriminate].
    injection H as _ <-.
    apply deserialize_loop_inv in Hloop as (vs & Hd & _ & _).
    induction Hd as [n n' Hn | n v n1 vs n' Hn _ IH].
    + specialize (Hinner n He). now rewrite Hn in Hinner.
    + apply IH. specialize (Hinner n He). now rewrite Hn in Hinner.
Qed.

(** X11, witness: the tag of the node, under the item serializer. *)
Lemma element_preserves_invariant_witness :
  tag (ElementSerializer.serialize item_serializer (empty_element "doc")
         (Some [Some "x"; None; Some "y"]) id false)
  = "doc".
Proof.
  apply (proj1 (element_preserves_invariant string string item_serializer
                  (fun n => tag n = "doc"))).
  - intros n [v|] encoder skip_empty Hn; exact Hn.
  - reflexivity.
Defined.

(** X12.  With an inner serializer that meets its contract, deserialize
    terminates on a node that holds the values [q], within one call more
    than there are values, and returns them in order, or absent when there
    is none. *)
Theorem element_deserialize_reads_queue :
  forall (A : Type) (inner : Serializer.t A A) (encoder : A -> string)
         (skip_empty : bool) (queue : XmlElement -> option (list A))
         (e : XmlElement) (q : list A) (fuel : nat),
    inner_contract inner encoder skip_empty queue ->
    queue e = Some q ->
    length q < fuel ->
    exists e',
      ElementSerializer.deserialize inner fuel (Some e)
      = Some (match q with
              | [] => None
              | _ => Some q
              end, Some e').
Proof.
  intros A inner encoder skip_empty queue e q fuel Hc Hq Hfuel.
  destruct (contract_drains inner encoder skip_empty queue Hc q e Hq)
    as [e' He'].
  exists e'. unfold ElementSerializer.deserialize.
  now rewrite (deserialize_loop_drains inner e q e' He' fuel [] Hfuel).
Qed.

(** X12, witness: the two children of a node. *)
Lemma element_deserialize_reads_queue_witness :
  exists e',
    ElementSerializer.deserialize item_serializer 3 (Some ab_children)
    = Some (Some ["a"; "b"], Some e').
Proof.
  apply (element_deserialize_reads_queue string item_serializer id false
           (child_queue "item") ab_children ["a"; "b"] 3).
  - apply child_serializer_contract.
  - reflexivity.
  - simpl. lia.
Defined.

(** ** Construction, further *)

Lemma has_one_sub_field_iff {FieldInfo : Type} (model_field : ModelField FieldInfo) :
  has_one_sub_field model_field = true
  <-> exists item, sub_fields model_field = Some [item].
Proof.
  unfold has_one_sub_field.
  destruct (sub_fields model_field) as [[|item [|item' subs]]|]; split;
    try discriminate; eauto; intros [x Hx]; discriminate.
Qed.

(** The text variant's constructor on an object that is not a class but
    has [__bases__]. *)
Lemma text_init_alias {FieldInfo A R : Type} (model : Model)
    (model_field : ModelField FieldInfo) (ctx : Serializer.Context)
    (repr : string) (origin_mro : list string) :
  has_one_sub_field model_field = true ->
  type_ model_field = PyAlias repr origin_mro ->
  run (TextSerializer.__init__ (A:=A) (R:=R) model model_field ctx)
  = ([],
     if existsb (String.eqb tuple) (tl origin_mro) then
       Raise (ModelFieldError (__name__ model) (name model_field)
                "Inline list value should be of scalar type")
     else Ok Text).
Proof.
  intros Hone Htype.
  unfold run, TextSerializer.__init__, bind, assert, issubclass, isclass, ret,
    raise.
  rewrite Hone, Htype, has_abc_metaclass_tuple. cbv beta iota.
  destruct (existsb (String.eqb tuple) (tl origin_mro)); reflexivity.
Qed.

(** Every outcome of the text variant's constructor. *)
Lemma text_init_outcome {FieldInfo A R : Type} (model : Model)
    (model_field : ModelField FieldInfo) (ctx : Serializer.Context) :
  run (TextSerializer.__init__ (A:=A) (R:=R) model model_field ctx)
  = ([],
     if has_one_sub_field model_field then
       match type_ model_field with
       | PyNonClass _ => Raise (TypeError "issubclass() arg 1 must be a class")
       | PyClass _ | PyAlias _ _ =>
           if is_scalar_class (type_ model_field)
              || is_non_tuple_alias (type_ model_field)
           then Ok Text
           else
             Raise (ModelFieldError (__name__ model) (name model_field)
                      "Inline list value should be of scalar type")
       end
     else Raise (AssertionError None)).
Proof.
  destruct (has_one_sub_field model_field) eqn:Hone.
  - destruct (type_ model_field) as [mro | repr | repr origin_mro] eqn:Htype.
    + rewrite (text_init_class model model_field ctx mro Hone Htype).
      unfold is_scalar_class, is_non_tuple_alias.
      destruct (existsb (String.eqb BaseXmlModel) mro); [reflexivity |].
      destruct (existsb (String.eqb tuple) mro); reflexivity.
    + now rewrite (text_init_non_class model model_field ctx repr Hone Htype).
    + rewrite (text_init_alias model model_field ctx repr origin_mro Hone Htype).
      unfold is_scalar_class, is_non_tuple_alias.
      destruct (existsb (String.eqb tuple) (tl origin_mro)); reflexivity.
  - unfold run, TextSerializer.__init__, bind, assert. now rewrite Hone.
Qed.

(** Every outcome of the attribute variant's constructor. *)
Lemma attribute_init_outcome {FieldInfo A R : Type}
    (ext : Externals FieldInfo A R) (model : Model)
    (model_field : ModelField FieldInfo) (ctx : Serializer.Context) :
  run (AttributeSerializer.__init__ ext model model_field ctx)
  = ([],
     if has_one_sub_field model_field then
       if isclass (type_ model_field) then
         if is_non_model_class (type_ model_field) then
           match name model_field with
           | None => Raise (AssertionError (Some "attr must be name"))
           | Some n =>
               Ok (Attribute
                     (from_alias_uri ext n
                        (snd (fst (_get_entity_info ext model_field)))
                        (snd (_get_entity_info ext model_field)) true))
           end
         else
           Raise (ModelFieldError (__name__ model) (name model_field)
                    "Inline list value should be of scalar type")
       else Raise (TypeError "issubclass() arg 1 must be a class")
     else Raise (AssertionError None)).
Proof.
  unfold run, AttributeSerializer.__init__, bind, assert, issubclass, ret, raise.
  destruct (has_one_sub_field model_field); [| reflexivity]. cbv beta iota.
  destruct (type_ model_field) as [mro | repr | repr origin_mro];
    [| reflexivity | now rewrite has_abc_metaclass_BaseXmlModel].
  unfold is_non_model_class, isclass.
  destruct (existsb (String.eqb BaseXmlModel) mro); [reflexivity |].
  destruct (_get_entity_info ext model_field) as [[n ns] nsmap].
  now destruct (name model_field).
Qed.

Lemma non_model_class_isclass (t : PyType) :
  is_non_model_class t = true -> isclass t = true.
Proof. destruct t; [reflexivity | discriminate | discriminate]. Qed.

Lemma scalar_class_non_model (t : PyType) :
  is_scalar_class t = true -> is_non_model_class t = true.
Proof.
  destruct t as [mro | repr | repr origin_mro]; try discriminate.
  simpl. intros H. now apply andb_true_iff in H as [H _].
Qed.

Lemma non_tuple_alias_not_class (t : PyType) :
  is_non_tuple_alias t = true -> isclass t = false.
Proof. destruct t; [discriminate | discriminate | reflexivity]. Qed.

(** X13.  The text variant's constructor returns a serializer exactly when
    the field has one sub-field and its item type is either a class that
    derives neither from BaseXmlModel nor from tuple, or an object that is
    not a class but has the bases of a class whose proper ancestors do not
    include tuple (a generic alias such as [dict[str, int]]). *)
Theorem text_init_accepts_iff :
  forall (FieldInfo A R : Type) (model : Model)
         (model_field : ModelField FieldInfo) (ctx : Serializer.Context)
         (out : list SerializerClass * HomogeneousSerializer A R),
    run (TextSerializer.__init__ model model_field ctx)
    = (fst out, Ok (snd out))
    <-> out = ([], Text)
        /\ has_one_sub_field model_field = true
        /\ (is_scalar_class (type_ model_field) = true
            \/ is_non_tuple_alias (type_ model_field) = true).
Proof.
  intros FieldInfo A R model model_field ctx [log s].
  rewrite text_init_outcome. simpl. split.
  - destruct (has_one_sub_field model_field); [| discriminate].
    destruct (is_scalar_class (type_ model_field)
              || is_non_tuple_alias (type_ model_field)) eqn:E;
      destruct (type_ model_field) as [mro | repr | repr origin_mro];
      try discriminate;
      intros H; injection H as <- <-;
      apply orb_true_iff in E; auto.
  - intros (H & -> & Hs). injection H as -> ->.
    apply orb_true_iff in Hs. rewrite Hs.
    destruct (type_ model_field) as [mro | repr | repr origin_mro];
      [reflexivity | | reflexivity].
    apply orb_true_iff in Hs. destruct Hs; discriminate.
Qed.

(** X13, witness: items of type str, and items of type [dict[str, int]]. *)
Lemma text_init_accepts_iff_witness :
  run (TextSerializer.__init__ (A:=string) (R:=string) (sample_model false)
         (sample_field str_class 1) sample_ctx)
  = ([], Ok Text)
  /\ run (TextSerializer.__init__ (A:=string) (R:=string) (sample_model false)
            (sample_field dict_alias 1) sample_ctx)
     = ([], Ok Text).
Proof.
  split.
  - apply (proj2 (text_init_accepts_iff unit string string (sample_model false)
                    (sample_field str_class 1) sample_ctx ([], Text))).
    split; [reflexivity |]. split; [reflexivity |]. left. reflexivity.
  - apply (proj2 (text_init_accepts_iff unit string string (sample_model false)
                    (sample_field dict_alias 1) sample_ctx ([], Text))).
    split; [reflexivity |]. split; [reflexivity |]. right. reflexivity.
Defined.

(** X14.  The attribute variant's constructor returns a serializer exactly
    when the field has one sub-field, its item type is a class that does
    not derive from BaseXmlModel, and the field has a name; the serializer
    then holds the attribute identifier resolved from that name, with the
    field's own namespace and namespace map. *)
Theorem attribute_init_accepts_iff :
  forall (FieldInfo A R : Type) (ext : Externals FieldInfo A R)
         (model : Model) (model_field : ModelField FieldInfo)
         (ctx : Serializer.Context)
         (out : list SerializerClass * HomogeneousSerializer A R),
    run (AttributeSerializer.__init__ ext model model_field ctx)
    = (fst out, Ok (snd out))
    <-> has_one_sub_field model_field = true
        /\ is_non_model_class (type_ model_field) = true
        /\ exists n : string,
             name model_field = Some n
             /\ out
                = ([],
                   Attribute
                     (from_alias_uri ext n
                        (snd (fst (_get_entity_info ext model_field)))
                        (snd (_get_entity_info ext model_field)) true)).
Proof.
  intros FieldInfo A R ext model model_field ctx [log s].
  rewrite attribute_init_outcome. simpl. split.
  - destruct (has_one_sub_field model_field); [| discriminate].
    destruct (isclass (type_ model_field)); [| discriminate].
    destruct (is_non_model_class (type_ model_field)); [| discriminate].
    destruct (name model_field) as [n|]; [| discriminate].
    intros H. injection H as <- <-. eauto.
  - intros (-> & Hc & n & -> & H). injection H as -> ->.
    now rewrite (non_model_class_isclass _ Hc), Hc.
Qed.

(** X14, witness: items of a named tuple class, under the name [values]. *)
Lemma attribute_init_accepts_iff_witness :
  run (AttributeSerializer.__init__ sample_externals (sample_model false)
         (sample_field namedtuple_class 1) sample_ctx)
  = ([], Ok (Attribute "values")).
Proof.
  apply (proj2 (attribute_init_accepts_iff unit string string sample_externals
                  (sample_model false) (sample_field namedtuple_class 1)
                  sample_ctx ([], Attribute "values"))).
  split; [reflexivity |]. split; [reflexivity |].
  exists "values". split; reflexivity.
Defined.

(** X15.  When the item type is not a class, the attribute variant's
    constructor raises the TypeError of issubclass, whatever the name of
    the field. *)
Theorem attribute_init_type_error_on_non_class :
  forall (FieldInfo A R : Type) (ext : Externals FieldInfo A R)
         (model : Model) (model_field : ModelField FieldInfo)
         (ctx : Serializer.Context),
    has_one_sub_field model_field = true ->
    isclass (type_ model_field) = false ->
    run (AttributeSerializer.__init__ ext model model_field ctx)
    = ([], Raise (TypeError "issubclass() arg 1 must be a class")).
Proof.
  intros FieldInfo A R ext model model_field ctx Hone Htype.
  now rewrite attribute_init_outcome, Hone, Htype.
Qed.

(** X15, witness: items of type [Union[int, str]] and of type
    [dict[str, int]]. *)
Lemma attribute_init_type_error_on_non_class_witness :
  run (AttributeSerializer.__init__ sample_externals (sample_model false)
         (sample_field union_form 1) sample_ctx)
  = ([], Raise (TypeError "issubclass() arg 1 must be a class"))
  /\ run (AttributeSerializer.__init__ sample_externals (sample_model false)
            (sample_field dict_alias 1) sample_ctx)
     = ([], Raise (TypeError "issubclass() arg 1 must be a class")).
Proof.
  split.
  - apply (attribute_init_type_error_on_non_class unit string string
             sample_externals (sample_model false) (sample_field union_form 1)
             sample_ctx);
      reflexivity.
  - apply (attribute_init_type_error_on_non_class unit string string
             sample_externals (sample_model false) (sample_field dict_alias 1)
             sample_ctx);
      reflexivity.
Defined.

(** X16.  Of the named fields that the text variant's constructor accepts,
    the attribute variant's constructor accepts those whose item type is a
    class, and raises the TypeError of issubclass for those whose item type
    is not a class. *)
Theorem text_accepted_is_attribute_accepted :
  forall (FieldInfo A R : Type) (ext : Externals FieldInfo A R)
         (model : Model) (model_field : ModelField FieldInfo)
         (ctx : Serializer.Context) (n : string),
    run (TextSerializer.__init__ (A:=A) (R:=R) model model_field ctx)
    = ([], Ok Text) ->
    name model_field = Some n ->
    (isclass (type_ model_field) = true ->
     run (AttributeSerializer.__init__ ext model model_field ctx)
     = ([],
        Ok (Attribute
              (from_alias_uri ext n
                 (snd (fst (_get_entity_info ext model_field)))
                 (snd (_get_entity_info ext model_field)) true))))
    /\ (isclass (type_ model_field) = false ->
        run (AttributeSerializer.__init__ ext model model_field ctx)
        = ([], Raise (TypeError "issubclass() arg 1 must be a class"))).
Proof.
  intros FieldInfo A R ext model model_field ctx n Htext Hname.
  rewrite text_init_outcome in Htext. rewrite attribute_init_outcome, Hname.
  destruct (has_one_sub_field model_field); [| discriminate].
  split; intros Hclass; rewrite Hclass; [| reflexivity].
  destruct (type_ model_field) as [mro | repr | repr origin_mro];
    try discriminate.
  unfold is_scalar_class, is_non_tuple_alias, is_non_model_class in *.
  destruct (existsb (String.eqb BaseXmlModel) mro); [discriminate | reflexivity].
Qed.

(** X16, witness: items of type str and of type [dict[str, int]], under the
    name [values]. *)
Lemma text_accepted_is_attribute_accepted_witness :
  run (AttributeSerializer.__init__ sample_externals (sample_model false)
         (sample_field str_class 1) sample_ctx)
  = ([], Ok (Attribute "values"))
  /\ run (AttributeSerializer.__init__ sample_externals (sample_model false)
            (sample_field dict_alias 1) sample_ctx)
     = ([], Raise (TypeError "issubclass() arg 1 must be a class")).
Proof.
  split.
  - apply (proj1 (text_accepted_is_attribute_accepted unit string string
                    sample_externals (sample_model false)
                    (sample_field str_class 1) sample_ctx "values"
                    eq_refl eq_refl)).
    reflexivity.
  - apply (proj2 (text_accepted_is_attribute_accepted unit string string
                    sample_externals (sample_model false)
                    (sample_field dict_alias 1) sample_ctx "values"
                    eq_refl eq_refl)).
    reflexivity.
Defined.

(** X17.  The text and attribute variants' constructors assert that the
    field has exactly one sub-field before they look at the item type: with
    no sub-fields, none or several, both raise AssertionError, also for an
    item type that is a model, a tuple or not a class. *)
Theorem inline_init_asserts_one_sub_field :
  forall (FieldInfo A R : Type) (ext : Externals FieldInfo A R)
         (model : Model) (model_field : ModelField FieldInfo)
         (ctx : Serializer.Context),
    (forall item, sub_fields model_field <> Some [item]) ->
    run (TextSerializer.__init__ (A:=A) (R:=R) model model_field ctx)
    = ([], Raise (AssertionError None))
    /\ run (AttributeSerializer.__init__ ext model model_field ctx)
       = ([], Raise (AssertionError None)).
Proof.
  intros FieldInfo A R ext model model_field ctx Hsub.
  assert (Hone : has_one_sub_field model_field = false).
  { destruct (has_one_sub_field model_field) eqn:E; [| reflexivity].
    apply has_one_sub_field_iff in E as [item Hitem].
    now destruct (Hsub item). }
  now rewrite text_init_outcome, attribute_init_outcome, Hone.
Qed.

(** X17, witness: a field without sub-fields whose item type is a model. *)
Lemma inline_init_asserts_one_sub_field_witness :
  run (TextSerializer.__init__ (A:=string) (R:=string) (sample_model false)
         (sample_item model_class 1) sample_ctx)
  = ([], Raise (AssertionError None))
  /\ run (AttributeSerializer.__init__ sample_externals (sample_model false)
            (sample_item model_class 1) sample_ctx)
     = ([], Raise (AssertionError None)).
Proof.
  apply (inline_init_asserts_one_sub_field unit string string sample_externals
           (sample_model false) (sample_item model_class 1) sample_ctx).
  intros item. discriminate.
Defined.

(** The inline constructors create no further object: they hand back the
    record of constructions they were given. *)
Lemma text_init_log {FieldInfo A R : Type} (model : Model)
    (model_field : ModelField FieldInfo) (ctx : Serializer.Context)
    (log : list SerializerClass) :
  TextSerializer.__init__ (A:=A) (R:=R) model model_field ctx log
  = (log, snd (run (TextSerializer.__init__ model model_field ctx))).
Proof.
  unfold run, TextSerializer.__init__, bind, assert, issubclass, isclass, ret,
    raise.
  destruct (has_one_sub_field model_field); [| reflexivity]. cbv beta iota.
  destruct (type_ model_field) as [mro | repr | repr origin_mro];
    [| reflexivity |].
  - destruct (existsb (String.eqb BaseXmlModel) mro); [reflexivity |].
    destruct (existsb (String.eqb tuple) mro); reflexivity.
  - rewrite has_abc_metaclass_tuple.
    destruct (existsb (String.eqb tuple) (tl origin_mro)); reflexivity.
Qed.

Lemma attribute_init_log {FieldInfo A R : Type} (ext : Externals FieldInfo A R)
    (model : Model) (model_field : ModelField FieldInfo)
    (ctx : Serializer.Context) (log : list SerializerClass) :
  AttributeSerializer.__init__ ext model model_field ctx log
  = (log, snd (run (AttributeSerializer.__init__ ext model model_field ctx))).
Proof.
  unfold run, AttributeSerializer.__init__, bind, assert, issubclass, ret, raise.
  destruct (has_one_sub_field model_field); [| reflexivity]. cbv beta iota.
  destruct (type_ model_field) as [mro | repr | repr origin_mro];
    [| reflexivity | now rewrite has_abc_metaclass_BaseXmlModel].
  destruct (existsb (String.eqb BaseXmlModel) mro); [reflexivity |].
  destruct (_get_entity_info ext model_field) as [[n ns] nsmap].
  now destruct (name model_field).
Qed.

(** The element variant's constructor returns the element variant. *)
Lemma element_init_returns_element {FieldInfo A R : Type}
    (ext : Externals FieldInfo A R) (model : Model)
    (model_field : ModelField FieldInfo) (ctx : Serializer.Context)
    (log log' : list SerializerClass) (s : HomogeneousSerializer A R) :
  ElementSerializer.__init__ ext model model_field ctx log = (log', Ok s) ->
  variant_location s = ELEMENT.
Proof.
  unfold ElementSerializer.__init__.
  destruct (sub_fields model_field) as [subs|]; [| discriminate].
  destruct (_get_entity_info ext model_field) as [[n ns] nsmap].
  destruct subs as [|sub0 subs]; [discriminate |].
  unfold bind.
  match goal with
  | |- context [_build_field_serializer ext model ?i ?c log] =>
      destruct (_build_field_serializer ext model i c log) as [l [inner | e]]
  end; [| discriminate].
  intros H. injection H as _ <-. reflexivity.
Qed.

(** What [build] does once its assertions hold. *)
Lemma build_singleton {FieldInfo A R : Type} (ext : Externals FieldInfo A R)
    (model : Model) (model_field item : ModelField FieldInfo)
    (field_location : Location) (ctx : Serializer.Context) :
  sub_fields model_field = Some [item] ->
  run (HomogeneousSerializerFactory.build ext model model_field field_location
         ctx)
  = if is_collection_shape (from_shape ext (shape item)) then
      ([],
       Raise (ModelFieldError (__name__ model) (name model_field)
                "collection elements can't be of collection type"))
    else if __custom_root_type__ model && is_MISSING field_location then
      ([],
       Raise (ModelFieldError (__name__ model) (name model_field)
                "root model collections should be marked as elements"))
    else
      match field_location with
      | ELEMENT =>
          ElementSerializer.__init__ ext model model_field ctx
            [ElementSerializerClass]
      | MISSING =>
          ([TextSerializerClass],
           snd (run (TextSerializer.__init__ model model_field ctx)))
      | ATTRIBUTE =>
          ([AttributeSerializerClass],
           snd (run (AttributeSerializer.__init__ ext model model_field ctx)))
      end.
Proof.
  intros Hsub. unfold run at 1, HomogeneousSerializerFactory.build.
  rewrite Hsub.
  destruct (is_collection_shape (from_shape ext (shape item))); [reflexivity |].
  destruct (__custom_root_type__ model && is_MISSING field_location);
    [reflexivity |].
  destruct field_location; unfold construct; simpl.
  - reflexivity.
  - apply attribute_init_log.
  - apply text_init_log.
Qed.

(** What [build] does when its assertions fail. *)
Lemma build_not_singleton {FieldInfo A R : Type} (ext : Externals FieldInfo A R)
    (model : Model) (model_field : ModelField FieldInfo)
    (field_location : Location) (ctx : Serializer.Context) :
  (forall item, sub_fields model_field <> Some [item]) ->
  run (HomogeneousSerializerFactory.build ext model model_field field_location
         ctx)
  = ([],
     Raise (AssertionError
              (Some (match sub_fields model_field with
                     | None => "unexpected model field"
                     | Some _ => "unexpected subfields number"
                     end)))).
Proof.
  intros Hsub. unfold run, HomogeneousSerializerFactory.build.
  destruct (sub_fields model_field) as [[|item [|item' subs]]|];
    try reflexivity.
  now destruct (Hsub item).
Qed.

Lemma singleton_or_not {FieldInfo : Type} (model_field : ModelField FieldInfo) :
  (exists item, sub_fields model_field = Some [item])
  \/ (forall item, sub_fields model_field <> Some [item]).
Proof.
  destruct (sub_fields model_field) as [[|item [|item' subs]]|];
    try (right; intros x; discriminate).
  left. eauto.
Qed.

(** X18.  When [build] returns a serializer, the variant is the one of the
    requested location, the field has exactly one sub-field, whose shape is
    not a collection, the model is not a root model if the location is
    MISSING, and for the locations MISSING and ATTRIBUTE exactly one
    serializer object was created. *)
Theorem build_success_sound :
  forall (FieldInfo A R : Type) (ext : Externals FieldInfo A R)
         (model : Model) (model_field : ModelField FieldInfo)
         (field_location : Location) (ctx : Serializer.Context)
         (log : list SerializerClass) (s : HomogeneousSerializer A R),
    run (HomogeneousSerializerFactory.build ext model model_field
           field_location ctx)
    = (log, Ok s) ->
    variant_location s = field_location
    /\ (exists item,
          sub_fields model_field = Some [item]
          /\ is_collection_shape (from_shape ext (shape item)) = false)
    /\ (field_location = MISSING -> __custom_root_type__ model = false)
    /\ (field_location <> ELEMENT -> log = [location_class field_location]).
Proof.
  intros FieldInfo A R ext model model_field field_location ctx log s H.
  destruct (singleton_or_not model_field) as [[item Hsub] | Hsub].
  2: { rewrite build_not_singleton in H by exact Hsub. discriminate. }
  rewrite (build_singleton ext model model_field item field_location ctx Hsub)
    in H.
  destruct (is_collection_shape (from_shape ext (shape item))) eqn:Hshape;
    [discriminate |].
  destruct (__custom_root_type__ model && is_MISSING field_location) eqn:Hroot;
    [discriminate |].
  split; [| split; [eauto | split]].
  - destruct field_location.
    + eapply element_init_returns_element; eassumption.
    + injection H as _ H. rewrite attribute_init_outcome in H. simpl in H.
      destruct (has_one_sub_field model_field); [| discriminate].
      destruct (isclass (type_ model_field)); [| discriminate].
      destruct (is_non_model_class (type_ model_field)); [| discriminate].
      destruct (name model_field); [| discriminate].
      injection H as <-. reflexivity.
    + injection H as _ H. rewrite text_init_outcome in H. simpl in H.
      destruct (has_one_sub_field model_field); [| discriminate].
      destruct (is_scalar_class (type_ model_field)
                || is_non_tuple_alias (type_ model_field));
        destruct (type_ model_field) as [mro | repr | repr origin_mro];
        try discriminate; injection H as <-; reflexivity.
  - intros ->. simpl in Hroot. now rewrite andb_true_r in Hroot.
  - intros Hloc. destruct field_location; [congruence | |];
      injection H as <- _; reflexivity.
Qed.

(** X18, witness: the attribute variant for a list of str. *)
Lemma build_success_sound_witness :
  variant_location (A:=string) (R:=string) (Attribute "values") = ATTRIBUTE.
Proof.
  apply (build_success_sound unit string string sample_externals
           (sample_model true) (sample_field str_class 1) ATTRIBUTE sample_ctx
           [AttributeSerializerClass] (Attribute "values")).
  reflexivity.
Defined.

(** X19.  A field whose sub-fields are not exactly one makes [build] raise
    AssertionError before anything else is looked at and before anything is
    constructed: "unexpected model field" when there are no sub-fields at
    all, "unexpected subfields number" when there are none or several in
    the list. *)
Theorem build_asserts_one_sub_field :
  forall (FieldInfo A R : Type) (ext : Externals FieldInfo A R)
         (model : Model) (model_field : ModelField FieldInfo)
         (field_location : Location) (ctx : Serializer.Context),
    (sub_fields model_field = None ->
     run (HomogeneousSerializerFactory.build ext model model_field
            field_location ctx)
     = ([], Raise (AssertionError (Some "unexpected model field"))))
    /\ (forall subs : list (ModelField FieldInfo),
           sub_fields model_field = Some subs ->
           length subs <> 1 ->
           run (HomogeneousSerializerFactory.build ext model model_field
                  field_location ctx)
           = ([], Raise (AssertionError (Some "unexpected subfields number")))).
Proof.
  intros FieldInfo A R ext model model_field field_location ctx. split.
  - intros Hsub. rewrite build_not_singleton; rewrite Hsub;
      [reflexivity | discriminate].
  - intros subs Hsub Hlen. rewrite build_not_singleton; rewrite Hsub.
    + reflexivity.
    + intros item Hitem. injection Hitem as ->. now apply Hlen.
Qed.

(** X19, witness: a field without sub-fields, for a root model at the
    location MISSING. *)
Lemma build_asserts_one_sub_field_witness :
  run (HomogeneousSerializerFactory.build sample_externals (sample_model true)
         (sample_item model_class 2) MISSING sample_ctx)
  = ([], Raise (AssertionError (Some "unexpected model field"))).
Proof.
  apply (proj1 (build_asserts_one_sub_field unit string string sample_externals
                  (sample_model true) (sample_item model_class 2) MISSING
                  sample_ctx)).
  reflexivity.
Defined.

(** X20.  At the location MISSING, [build] returns a serializer exactly
    when the model is not a root model, the field has one sub-field whose
    shape is not a collection, and the item type is either a class that
    derives neither from BaseXmlModel nor from tuple, or an object that is
    not a class but has the bases of a class whose proper ancestors do not
    include tuple; it is then the text variant, the only object created. *)
Theorem build_text_accepts_iff :
  forall (FieldInfo A R : Type) (ext : Externals FieldInfo A R)
         (model : Model) (model_field : ModelField FieldInfo)
         (ctx : Serializer.Context)
         (out : list SerializerClass * HomogeneousSerializer A R),
    run (HomogeneousSerializerFactory.build ext model model_field MISSING ctx)
    = (fst out, Ok (snd out))
    <-> out = ([TextSerializerClass], Text)
        /\ __custom_root_type__ model = false
        /\ (exists item,
              sub_fields model_field = Some [item]
              /\ is_collection_shape (from_shape ext (shape item)) = false)
        /\ (is_scalar_class (type_ model_field) = true
            \/ is_non_tuple_alias (type_ model_field) = true).
Proof.
  intros FieldInfo A R ext model model_field ctx [log s]. simpl. split.
  - intros H.
    destruct (singleton_or_not model_field) as [[item Hsub] | Hsub].
    2: { rewrite build_not_singleton in H by exact Hsub. discriminate. }
    rewrite (build_singleton ext model model_field item MISSING ctx Hsub) in H.
    destruct (is_collection_shape (from_shape ext (shape item))) eqn:Hshape;
      [discriminate |].
    destruct (__custom_root_type__ model) eqn:Hroot; [discriminate |].
    simpl in H. rewrite text_init_outcome in H. simpl in H.
    destruct (has_one_sub_field model_field); [| discriminate].
    destruct (is_scalar_class (type_ model_field)
              || is_non_tuple_alias (type_ model_field)) eqn:E;
      destruct (type_ model_field) as [mro | repr | repr origin_mro];
      try discriminate;
      injection H as <- <-; apply orb_true_iff in E; eauto 8.
  - intros (H & Hroot & (item & Hsub & Hshape) & Hscalar).
    injection H as -> ->.
    rewrite (build_singleton ext model model_field item MISSING ctx Hsub).
    rewrite Hshape, Hroot. simpl. rewrite text_init_outcome. simpl.
    assert (Hone : has_one_sub_field model_field = true)
      by (apply has_one_sub_field_iff; eauto).
    rewrite Hone. apply orb_true_iff in Hscalar. rewrite Hscalar.
    destruct (type_ model_field) as [mro | repr | repr origin_mro];
      [reflexivity | | reflexivity].
    apply orb_true_iff in Hscalar. destruct Hscalar; discriminate.
Qed.

(** X20, witness: a list of str, and a list of [dict[str, int]], in a model
    that is not a root model. *)
Lemma build_text_accepts_iff_witness :
  run (HomogeneousSerializerFactory.build sample_externals (sample_model false)
         (sample_field str_class 1) MISSING sample_ctx)
  = ([TextSerializerClass], Ok Text)
  /\ run (HomogeneousSerializerFactory.build sample_externals
            (sample_model false) (sample_field dict_alias 1) MISSING sample_ctx)
     = ([TextSerializerClass], Ok Text).
Proof.
  split.
  - apply (proj2 (build_text_accepts_iff unit string string sample_externals
                    (sample_model false) (sample_field str_class 1) sample_ctx
                    ([TextSerializerClass], Text))).
    split; [reflexivity |]. split; [reflexivity |].
    split; [| left; reflexivity].
    exists (sample_item str_class 1). split; reflexivity.
  - apply (proj2 (build_text_accepts_iff unit string string sample_externals
                    (sample_model false) (sample_field dict_alias 1) sample_ctx
                    ([TextSerializerClass], Text))).
    split; [reflexivity |]. split; [reflexivity |].
    split; [| right; reflexivity].
    exists (sample_item dict_alias 1). split; reflexivity.
Defined.

(** X21.  For a root model, [build] at the location MISSING never returns a
    serializer, whatever the field: it raises, and nothing has been
    constructed. *)
Theorem build_root_text_always_fails :
  forall (FieldInfo A R : Type) (ext : Externals FieldInfo A R)
         (model : Model) (model_field : ModelField FieldInfo)
         (ctx : Serializer.Context),
    __custom_root_type__ model = true ->
    exists err : PyErr,
      run (HomogeneousSerializerFactory.build ext model model_field MISSING ctx)
      = ([], Raise err).
Proof.
  intros FieldInfo A R ext model model_field ctx Hroot.
  destruct (singleton_or_not model_field) as [[item Hsub] | Hsub].
  - rewrite (build_singleton ext model model_field item MISSING ctx Hsub).
    rewrite Hroot. simpl.
    destruct (is_collection_shape (from_shape ext (shape item))); eauto.
  - rewrite build_not_singleton by exact Hsub. eauto.
Qed.

(** X21, witness: a root model whose items are model classes. *)
Lemma build_root_text_always_fails_witness :
  exists err : PyErr,
    run (HomogeneousSerializerFactory.build sample_externals (sample_model true)
           (sample_field model_class 1) MISSING sample_ctx)
    = ([], Raise err).
Proof.
  apply (build_root_text_always_fails unit string string sample_externals
           (sample_model true) (sample_field model_class 1) sample_ctx).
  reflexivity.
Defined.

(** X22.  At the location ATTRIBUTE, [build] returns a serializer exactly
    when the field has one sub-field whose shape is not a collection, the
    item type is a class that does not derive from BaseXmlModel, and the
    field has a name, for root models as for the others; it is then the
    attribute variant for the identifier resolved from that name, the only
    object created. *)
Theorem build_attribute_accepts_iff :
  forall (FieldInfo A R : Type) (ext : Externals FieldInfo A R)
         (model : Model) (model_field : ModelField FieldInfo)
         (ctx : Serializer.Context)
         (out : list SerializerClass * HomogeneousSerializer A R),
    run (HomogeneousSerializerFactory.build ext model model_field ATTRIBUTE ctx)
    = (fst out, Ok (snd out))
    <-> (exists item,
           sub_fields model_field = Some [item]
           /\ is_collection_shape (from_shape ext (shape item)) = false)
        /\ is_non_model_class (type_ model_field) = true
        /\ exists n : string,
             name model_field = Some n
             /\ out
                = ([AttributeSerializerClass],
                   Attribute
                     (from_alias_uri ext n
                        (snd (fst (_get_entity_info ext model_field)))
                        (snd (_get_entity_info ext model_field)) true)).
Proof.
  intros FieldInfo A R ext model model_field ctx [log s]. simpl. split.
  - intros H.
    destruct (singleton_or_not model_field) as [[item Hsub] | Hsub].
    2: { rewrite build_not_singleton in H by exact Hsub. discriminate. }
    rewrite (build_singleton ext model model_field item ATTRIBUTE ctx Hsub)
      in H.
    destruct (is_collection_shape (from_shape ext (shape item))) eqn:Hshape;
      [discriminate |].
    rewrite andb_false_r in H. rewrite attribute_init_outcome in H. simpl in H.
    destruct (has_one_sub_field model_field); [| discriminate].
    destruct (isclass (type_ model_field)); [| discriminate].
    destruct (is_non_model_class (type_ model_field)); [| discriminate].
    destruct (name model_field) as [n|]; [| discriminate].
    injection H as <- <-. eauto 8.
  - intros ((item & Hsub & Hshape) & Hclass & n & Hname & H).
    injection H as -> ->.
    rewrite (build_singleton ext model model_field item ATTRIBUTE ctx Hsub).
    rewrite Hshape, andb_false_r, attribute_init_outcome. simpl.
    assert (Hone : has_one_sub_field model_field = true)
      by (apply has_one_sub_field_iff; eauto).
    now rewrite Hone, Hname, (non_model_class_isclass _ Hclass), Hclass.
Qed.

(** X22, witness: a list of str in a root model. *)
Lemma build_attribute_accepts_iff_witness :
  run (HomogeneousSerializerFactory.build sample_externals (sample_model true)
         (sample_field str_class 1) ATTRIBUTE sample_ctx)
  = ([AttributeSerializerClass], Ok (Attribute "values")).
Proof.
  apply (proj2 (build_attribute_accepts_iff unit string string sample_externals
                  (sample_model true) (sample_field str_class 1) sample_ctx
                  ([AttributeSerializerClass], Attribute "values"))).
  split; [exists (sample_item str_class 1); split; reflexivity |].
  split; [reflexivity |].
  exists "values". split; reflexivity.
Defined.

(** X23.  At the location ELEMENT, once the shape check has passed, the
    outcome of [build] is the outcome of the generic builder, called after
    the element serializer object has been created, for an item field that
    has the type, shape and sub-fields of the item sub-field and the name,
    alias and field information of the collection field, in a context that
    is not a root: a serializer of the builder is wrapped in the element
    variant, an exception of the builder is passed on.  The item type is
    not examined. *)
Theorem build_element_delegates :
  forall (FieldInfo A R : Type) (ext : Externals FieldInfo A R)
         (model : Model) (model_field item : ModelField FieldInfo)
         (ctx : Serializer.Context),
    sub_fields model_field = Some [item] ->
    is_collection_shape (from_shape ext (shape item)) = false ->
    exists (item_field : ModelField FieldInfo) (ctx' : Serializer.Context)
           (_element_name : string),
      (name item_field = name model_field
       /\ alias item_field = alias model_field
       /\ field_info item_field = field_info model_field
       /\ type_ item_field = type_ item
       /\ shape item_field = shape item
       /\ sub_fields item_field = sub_fields item)
      /\ Serializer.parent_is_root ctx' = false
      /\ run (HomogeneousSerializerFactory.build ext model model_field
                ELEMENT ctx)
         = match _build_field_serializer ext model item_field ctx'
                   [ElementSerializerClass] with
           | (log, Ok inner) => (log, Ok (Element _element_name inner))
           | (log, Raise err) => (log, Raise err)
           end.
Proof.
  intros FieldInfo A R ext model model_field item ctx Hsub Hshape.
  rewrite (build_singleton ext model model_field item ELEMENT ctx Hsub).
  rewrite Hshape, andb_false_r.
  unfold ElementSerializer.__init__. rewrite Hsub.
  destruct (_get_entity_info ext model_field) as [[n ns] nsmap].
  unfold bind, ret.
  match goal with
  | |- context [_build_field_serializer ext model ?i ?c _] =>
      exists i, c
  end.
  eexists. split; [repeat split |]. split; [reflexivity |].
  reflexivity.
Qed.

(** X23, witness: a list of model items at the location ELEMENT. *)
Lemma build_element_delegates_witness :
  exists (item_field : ModelField unit) (ctx' : Serializer.Context)
         (_element_name : string),
    (name item_field = Some "values"
     /\ alias item_field = "values"
     /\ field_info item_field = tt
     /\ type_ item_field = model_class
     /\ shape item_field = 1%Z
     /\ sub_fields item_field = None)
    /\ Serializer.parent_is_root ctx' = false
    /\ run (HomogeneousSerializerFactory.build sample_externals
              (sample_model true) (sample_field model_class 1) ELEMENT
              sample_ctx)
       = match _build_field_serializer sample_externals (sample_model true)
                 item_field ctx' [ElementSerializerClass] with
         | (log, Ok inner) => (log, Ok (Element _element_name inner))
         | (log, Raise err) => (log, Raise err)
         end.
Proof.
  apply (build_element_delegates unit string string sample_externals
           (sample_model true) (sample_field model_class 1)
           (sample_item model_class 1) sample_ctx);
    reflexivity.
Defined.

(** X24.  The element variant's constructor does not assert that there is
    exactly one sub-field: without sub-fields it raises AssertionError,
    with an empty list of sub-fields IndexError, in both cases before the
    generic builder is called. *)
Theorem element_init_without_sub_fields :
  forall (FieldInfo A R : Type) (ext : Externals FieldInfo A R)
         (model : Model) (model_field : ModelField FieldInfo)
         (ctx : Serializer.Context),
    (sub_fields model_field = None ->
     run (ElementSerializer.__init__ ext model model_field ctx)
     = ([], Raise (AssertionError (Some "unexpected model field"))))
    /\ (sub_fields model_field = Some [] ->
        run (ElementSerializer.__init__ ext model model_field ctx)
        = ([], Raise (IndexError "list index out of range"))).
Proof.
  intros FieldInfo A R ext model model_field ctx.
  unfold run, ElementSerializer.__init__. split; intros ->.
  - reflexivity.
  - now destruct (_get_entity_info ext model_field) as [[n ns] nsmap].
Qed.

(** X24, witness: a field without sub-fields. *)
Lemma element_init_without_sub_fields_witness :
  run (ElementSerializer.__init__ sample_externals (sample_model false)
         (sample_item str_class 1) sample_ctx)
  = ([], Raise (AssertionError (Some "unexpected model field"))).
Proof.
  apply (proj1 (element_init_without_sub_fields unit string string
                  sample_externals (sample_model false)
                  (sample_item str_class 1) sample_ctx)).
  reflexivity.
Defined.
